(** * Market-Bot: the real-time synchronisation subsystem

    A shallow embedding of the TypeScript sources of the catalog
    synchronisation code:

    - [bot/src/modules/real-time/WebSocketManager.ts]: the subscriber side
      connection manager ([WebSocketManager]) and the polling cache
      ([ProductManager]);
    - [dashboard/lib/websocket-server.ts]: the broadcast hub;
    - [shared/schemas/change-streams.ts]: the change feed watcher.

    Dates are epoch milliseconds in [Z] (what JavaScript compares when two
    [Date]s are ordered with [>]; [lastUpdated] is a required [Date] of
    [IProduct]), JavaScript [Map]s with string keys are [gmap string], a
    [Set] iterated with [forEach] is the list of its members in insertion
    order, and every handler is a function from the state before to the
    state after: handlers run one at a time, each to its end. Writes to the
    console are left out. *)

From Stdlib Require Import ZArith Lia Ascii String DecimalString.
From stdpp Require Import base option list strings gmap.

Open Scope string_scope.
Open Scope list_scope.

(** ** shared/schemas/product.ts *)

Module Product.

(** [IProduct]: the fields of the catalog document that the
    synchronisation code carries around. [price] is in hundredths (the
    schema allows at most two decimals); [lastUpdated] is the document's
    own last-modified [Date]. *)
Record IProduct := {
  productId : string;
  name : string;
  price : Z;
  stock : Z;
  isActive : bool;
  lastUpdated : Z
}.

#[global] Instance IProduct_eq_dec : EqDecision IProduct.
Proof. solve_decision. Defined.

End Product.

(** The [data] of a [PRODUCT_UPDATE] message:
    [change.fullDocument || change.documentKey]. *)
Inductive Payload :=
| FullDocument (p : Product.IProduct)
| DocumentKey (id : string).

#[global] Instance Payload_eq_dec : EqDecision Payload.
Proof. solve_decision. Defined.

(** ** bot/src/modules/real-time/ChannelManager.ts *)

Module ChannelManager.

(** The presentation layer is the chat platform. Its state is the trace
    of the calls of [updateProductEmbed], oldest first: one entry per
    request to re-render a product. The one [ChannelManager] object is
    shared by [ProductManager] and [WebSocketManager]. *)
Definition t := list Payload.

Definition updateProductEmbed (product : Payload) (ch : t) : t :=
  ch ++ [product].

End ChannelManager.

(** ** ProductManager (polling and the product cache) *)

Module ProductManager.

(** A value of [productCache]: [{ product, lastUpdated }]. *)
Record CacheEntry := {
  product : Product.IProduct;
  lastUpdated : Z
}.

#[global] Instance CacheEntry_eq_dec : EqDecision CacheEntry.
Proof. solve_decision. Defined.

Record t := {
  lastPollTime : Z;
  productCache : gmap string CacheEntry
}.

(** [new ProductManager(channelManager)]. *)
Definition init : t := {| lastPollTime := 0; productCache := ∅ |}.

Definition set_productCache (c : gmap string CacheEntry) (pm : t) : t :=
  {| lastPollTime := lastPollTime pm; productCache := c |}.

Definition set_lastPollTime (now : Z) (pm : t) : t :=
  {| lastPollTime := now; productCache := productCache pm |}.

(** What [fetch] and the JSON body gave: the request failed or threw,
    the body said [success: false], or it carried the product list. *)
Inductive FetchResult :=
| FetchFailed
| ApiError
| ApiSuccess (data : list Product.IProduct).

(** The test [!cached || productLastUpdated > cached.lastUpdated]. *)
Definition isNewOrUpdated (cached : option CacheEntry)
    (productLastUpdated : Z) : bool :=
  match cached with
  | None => true
  | Some c => lastUpdated c <? productLastUpdated
  end%Z.

(** The body of the loop of [processProductUpdates]. *)
Definition processProduct (st : t * ChannelManager.t)
    (p : Product.IProduct) : t * ChannelManager.t :=
  let cached := productCache st.1 !! Product.productId p in
  let productLastUpdated := Product.lastUpdated p in
  if isNewOrUpdated cached productLastUpdated then
    let ch := ChannelManager.updateProductEmbed (FullDocument p) st.2 in
    let entry := {| product := p; lastUpdated := productLastUpdated |} in
    (set_productCache (<[Product.productId p := entry]> (productCache st.1)) st.1,
     ch)
  else st.

Definition processProductUpdates (products : list Product.IProduct)
    (st : t * ChannelManager.t) : t * ChannelManager.t :=
  foldl processProduct st products.

(** [pollForUpdates], called at time [now]; [r] is what the read API
    answers if it is asked. *)
Definition pollForUpdates (now : Z) (r : FetchResult)
    (st : t * ChannelManager.t) : t * ChannelManager.t :=
  if (now - lastPollTime st.1 <? 5000)%Z then st
  else
    let st1 := (set_lastPollTime now st.1, st.2) in
    match r with
    | ApiSuccess products => processProductUpdates products st1
    | ApiError | FetchFailed => st1
    end.

(** [initializeProductCache]: every fetched product is stored, with no
    comparison. *)
Definition initializeProductCache (r : FetchResult) (pm : t) : t :=
  match r with
  | ApiSuccess products =>
      foldl (fun pm p =>
               set_productCache
                 (<[Product.productId p :=
                      {| product := p; lastUpdated := Product.lastUpdated p |}]>
                    (productCache pm)) pm)
            pm products
  | ApiError | FetchFailed => pm
  end.

(** The cache holds an entry for the product of [p] that is at least as
    new as [p]. *)
Definition covered (st : t * ChannelManager.t) (p : Product.IProduct) : Prop :=
  ∃ e, productCache st.1 !! Product.productId p = Some e
       ∧ (Product.lastUpdated p ≤ lastUpdated e)%Z.

Definition getCachedProduct (productId : string) (pm : t)
    : option Product.IProduct :=
  product <$> productCache pm !! productId.

End ProductManager.

(** ** The [ws] library: what both ends read of a socket *)

Module WebSocket.

(** [readyState]. *)
Inductive ReadyState := CONNECTING | OPEN | CLOSING | CLOSED.

#[global] Instance ReadyState_eq_dec : EqDecision ReadyState.
Proof. solve_decision. Defined.

End WebSocket.

(** ** WebSocketManager (subscriber side connection manager) *)

Module WebSocketManager.

Import WebSocket.

(** The messages the manager gives to [send]. *)
Inductive Outgoing :=
| SUBSCRIBE_PRODUCTS (guildId : option string)
| PING.

#[global] Instance Outgoing_eq_dec : EqDecision Outgoing.
Proof. solve_decision. Defined.

(** [interface WebSocketMessage]: a parsed message of the hub. *)
Record WebSocketMessage := {
  type : string;
  operation : string;
  data : Payload;
  timestamp : Z
}.

(** The fields of the class, and two fields for what it hands to its
    environment: [reconnectTimers] holds the delays of the pending
    [setTimeout(() => this.connect(), delay)] calls, oldest first, and
    [transmitted] the messages given to [this.ws.send], oldest first.
    [ws] is [None] for [null] and otherwise the [readyState] of the
    socket; an interval field is [true] when it holds a timer. *)
Record t := {
  ws : option ReadyState;
  reconnectAttempts : nat;
  isConnected : bool;
  heartbeatInterval : bool;
  lastHeartbeat : Z;
  fallbackPollingInterval : bool;
  reconnectTimers : list Z;
  transmitted : list Outgoing
}.

Definition maxReconnectAttempts : nat := 5.
Definition reconnectDelay : Z := 5000.

(** The field initialisers of the class. *)
Definition init : t := {|
  ws := None;
  reconnectAttempts := 0;
  isConnected := false;
  heartbeatInterval := false;
  lastHeartbeat := 0;
  fallbackPollingInterval := false;
  reconnectTimers := [];
  transmitted := []
|}.

Definition set_ws (v : option ReadyState) (s : t) : t :=
  {| ws := v; reconnectAttempts := reconnectAttempts s;
     isConnected := isConnected s; heartbeatInterval := heartbeatInterval s;
     lastHeartbeat := lastHeartbeat s;
     fallbackPollingInterval := fallbackPollingInterval s;
     reconnectTimers := reconnectTimers s; transmitted := transmitted s |}.

Definition set_reconnectAttempts (v : nat) (s : t) : t :=
  {| ws := ws s; reconnectAttempts := v;
     isConnected := isConnected s; heartbeatInterval := heartbeatInterval s;
     lastHeartbeat := lastHeartbeat s;
     fallbackPollingInterval := fallbackPollingInterval s;
     reconnectTimers := reconnectTimers s; transmitted := transmitted s |}.

Definition set_isConnected (v : bool) (s : t) : t :=
  {| ws := ws s; reconnectAttempts := reconnectAttempts s;
     isConnected := v; heartbeatInterval := heartbeatInterval s;
     lastHeartbeat := lastHeartbeat s;
     fallbackPollingInterval := fallbackPollingInterval s;
     reconnectTimers := reconnectTimers s; transmitted := transmitted s |}.

Definition set_heartbeatInterval (v : bool) (s : t) : t :=
  {| ws := ws s; reconnectAttempts := reconnectAttempts s;
     isConnected := isConnected s; heartbeatInterval := v;
     lastHeartbeat := lastHeartbeat s;
     fallbackPollingInterval := fallbackPollingInterval s;
     reconnectTimers := reconnectTimers s; transmitted := transmitted s |}.

Definition set_lastHeartbeat (v : Z) (s : t) : t :=
  {| ws := ws s; reconnectAttempts := reconnectAttempts s;
     isConnected := isConnected s; heartbeatInterval := heartbeatInterval s;
     lastHeartbeat := v;
     fallbackPollingInterval := fallbackPollingInterval s;
     reconnectTimers := reconnectTimers s; transmitted := transmitted s |}.

Definition set_fallbackPollingInterval (v : bool) (s : t) : t :=
  {| ws := ws s; reconnectAttempts := reconnectAttempts s;
     isConnected := isConnected s; heartbeatInterval := heartbeatInterval s;
     lastHeartbeat := lastHeartbeat s;
     fallbackPollingInterval := v;
     reconnectTimers := reconnectTimers s; transmitted := transmitted s |}.

Definition set_reconnectTimers (v : list Z) (s : t) : t :=
  {| ws := ws s; reconnectAttempts := reconnectAttempts s;
     isConnected := isConnected s; heartbeatInterval := heartbeatInterval s;
     lastHeartbeat := lastHeartbeat s;
     fallbackPollingInterval := fallbackPollingInterval s;
     reconnectTimers := v; transmitted := transmitted s |}.

Definition set_transmitted (v : list Outgoing) (s : t) : t :=
  {| ws := ws s; reconnectAttempts := reconnectAttempts s;
     isConnected := isConnected s; heartbeatInterval := heartbeatInterval s;
     lastHeartbeat := lastHeartbeat s;
     fallbackPollingInterval := fallbackPollingInterval s;
     reconnectTimers := reconnectTimers s; transmitted := v |}.

(** [send]: the message goes to the socket when
    [this.isConnected && this.ws && this.ws.readyState === WebSocket.OPEN];
    there is no other branch. *)
Definition send (message : Outgoing) (s : t) : t :=
  if isConnected s && bool_decide (ws s = Some OPEN)
  then set_transmitted (transmitted s ++ [message]) s
  else s.

Definition startHeartbeat (now : Z) (s : t) : t :=
  set_heartbeatInterval true (set_lastHeartbeat now s).

Definition stopHeartbeat (s : t) : t :=
  if heartbeatInterval s then set_heartbeatInterval false s else s.

Definition startFallbackPolling (s : t) : t :=
  if fallbackPollingInterval s then s
  else set_fallbackPollingInterval true s.

Definition stopFallbackPolling (s : t) : t :=
  if fallbackPollingInterval s then set_fallbackPollingInterval false s
  else s.

(** The body of [connect] up to the registration of the handlers:
    [this.ws = new WebSocket(wsUrl)]. *)
Definition connect (s : t) : t := set_ws (Some CONNECTING) s.

(** The ['open'] handler; [guildId] is
    [this.client.guilds.cache.first()?.id]. *)
Definition onOpen (now : Z) (guildId : option string) (s : t) : t :=
  let s := set_isConnected true s in
  let s := set_reconnectAttempts 0 s in
  let s := startHeartbeat now s in
  let s := stopFallbackPolling s in
  send (SUBSCRIBE_PRODUCTS guildId) s.

(** [handleProductUpdate]: the cases ['insert'] and ['update'] share
    one body, ['delete'] and the default branch only write to the
    console. *)
Definition handleProductUpdate (productData : Payload) (operation : string)
    (ch : ChannelManager.t) : ChannelManager.t :=
  if (operation =? "insert")%string || (operation =? "update")%string
  then ChannelManager.updateProductEmbed productData ch
  else if (operation =? "delete")%string then ch
  else ch.

Definition handleMessage (now : Z) (message : WebSocketMessage)
    (st : t * ChannelManager.t) : t * ChannelManager.t :=
  if (type message =? "CONNECTION_ESTABLISHED")%string then st
  else if (type message =? "PRODUCT_UPDATE")%string then
    (st.1, handleProductUpdate (data message) (operation message) st.2)
  else if (type message =? "PONG")%string then
    (set_lastHeartbeat now st.1, st.2)
  else st.

Definition handleDisconnection (s : t) : t :=
  let s := set_isConnected false s in
  let s := stopHeartbeat s in
  if (reconnectAttempts s <? maxReconnectAttempts)%nat then
    let s := set_reconnectAttempts (S (reconnectAttempts s)) s in
    let delay := (reconnectDelay * Z.of_nat (reconnectAttempts s))%Z in
    let s := set_reconnectTimers (reconnectTimers s ++ [delay]) s in
    if (reconnectAttempts s =? 1)%nat then startFallbackPolling s else s
  else
    startFallbackPolling s.

(** One tick of the interval of [startHeartbeat]; [ws.terminate()]
    leaves the socket closing. *)
Definition heartbeatTick (now : Z) (s : t) : t :=
  if isConnected s && bool_decide (is_Some (ws s)) then
    let s := send PING s in
    if (30000 <? now - lastHeartbeat s)%Z then set_ws (Some CLOSING) s
    else s
  else s.

(** The [type] field of a message the manager sends. *)
Definition outgoingType (m : Outgoing) : string :=
  match m with
  | SUBSCRIBE_PRODUCTS _ => "SUBSCRIBE_PRODUCTS"
  | PING => "PING"
  end.

Definition getConnectionStatus (s : t) : bool * bool :=
  (isConnected s, fallbackPollingInterval s).

Definition disconnect (s : t) : t :=
  let s := stopHeartbeat s in
  let s := stopFallbackPolling s in
  let s := if bool_decide (is_Some (ws s)) then set_ws None s else s in
  set_isConnected false s.

End WebSocketManager.

(** ** The bot process: the three objects of bot/src/index.ts and the
    events that drive them *)

Module Bot.

(** [channelManager] is one object, referenced by both managers. *)
Record t := {
  webSocketManager : WebSocketManager.t;
  productManager : ProductManager.t;
  channelManager : ChannelManager.t
}.

Definition init : t := {|
  webSocketManager := WebSocketManager.init;
  productManager := ProductManager.init;
  channelManager := []
|}.

(** What can happen to the bot once [initializeSystems] has filled the
    cache: the call of [connect] there, the four socket events registered
    in [connect] (the library moves [readyState] before it emits ['open']
    or ['close']), a pending reconnect timer firing, a heartbeat tick, a
    tick of the fallback polling interval, the refresh button of index.ts,
    and a call of [disconnect]. *)
Inductive Event :=
| Connect
| SocketOpen (now : Z) (guildId : option string)
| SocketMessage (now : Z) (message : WebSocketManager.WebSocketMessage)
| SocketClose
| SocketError
| ReconnectTimer
| HeartbeatTick (now : Z)
| FallbackPollTick (now : Z) (r : ProductManager.FetchResult)
| RefreshButton (now : Z) (r : ProductManager.FetchResult)
| Disconnect.

Definition withSocket (f : WebSocketManager.t -> WebSocketManager.t)
    (b : t) : t :=
  {| webSocketManager := f (webSocketManager b);
     productManager := productManager b;
     channelManager := channelManager b |}.

Definition withPoll (now : Z) (r : ProductManager.FetchResult) (b : t) : t :=
  let st := ProductManager.pollForUpdates now r
              (productManager b, channelManager b) in
  {| webSocketManager := webSocketManager b;
     productManager := st.1;
     channelManager := st.2 |}.

(** The socket in [this.ws], if any, changes its [readyState]. *)
Definition socketBecomes (r : WebSocket.ReadyState)
    (s : WebSocketManager.t) : WebSocketManager.t :=
  match WebSocketManager.ws s with
  | Some _ => WebSocketManager.set_ws (Some r) s
  | None => s
  end.

Definition step (b : t) (e : Event) : t :=
  match e with
  | Connect => withSocket WebSocketManager.connect b
  | SocketOpen now guildId =>
      withSocket (fun s => WebSocketManager.onOpen now guildId
                             (socketBecomes WebSocket.OPEN s)) b
  | SocketMessage now message =>
      let st := WebSocketManager.handleMessage now message
                  (webSocketManager b, channelManager b) in
      {| webSocketManager := st.1;
         productManager := productManager b;
         channelManager := st.2 |}
  | SocketClose =>
      withSocket (fun s => WebSocketManager.handleDisconnection
                             (socketBecomes WebSocket.CLOSED s)) b
  | SocketError =>
      withSocket WebSocketManager.handleDisconnection b
  | ReconnectTimer =>
      match WebSocketManager.reconnectTimers (webSocketManager b) with
      | [] => b
      | _ :: rest =>
          withSocket (fun s => WebSocketManager.connect
                                 (WebSocketManager.set_reconnectTimers rest s)) b
      end
  | HeartbeatTick now =>
      if WebSocketManager.heartbeatInterval (webSocketManager b)
      then withSocket (WebSocketManager.heartbeatTick now) b
      else b
  | FallbackPollTick now r =>
      if WebSocketManager.fallbackPollingInterval (webSocketManager b)
      then withPoll now r b
      else b
  | RefreshButton now r => withPoll now r b
  | Disconnect => withSocket WebSocketManager.disconnect b
  end.

Definition run (b : t) (es : list Event) : t := foldl step b es.

Definition cache (b : t) : gmap string ProductManager.CacheEntry :=
  ProductManager.productCache (productManager b).

(** The [lastUpdated] the cache holds for a product, if it holds one. *)
Definition cachedVersion (productId : string) (b : t) : option Z :=
  ProductManager.lastUpdated <$> cache b !! productId.

(** The cache entry that stores a snapshot. *)
Definition entryOf (p : Product.IProduct) : ProductManager.CacheEntry :=
  {| ProductManager.product := p;
     ProductManager.lastUpdated := Product.lastUpdated p |}.

(** The push path: the snapshot arrives as the [data] of a
    [PRODUCT_UPDATE] message and the ['message'] handler runs. *)
Definition productUpdate (operation : string) (data : Payload)
    (timestamp : Z) : WebSocketManager.WebSocketMessage :=
  {| WebSocketManager.type := "PRODUCT_UPDATE";
     WebSocketManager.operation := operation;
     WebSocketManager.data := data;
     WebSocketManager.timestamp := timestamp |}.

Definition viaPush (now : Z) (operation : string) (p : Product.IProduct)
    (b : t) : t :=
  step b (SocketMessage now (productUpdate operation (FullDocument p) now)).

(** The poll path: the snapshot is an item of the list that a poll
    cycle hands to [processProductUpdates]. *)
Definition viaPoll (p : Product.IProduct) (b : t) : t :=
  let st := ProductManager.processProductUpdates [p]
              (productManager b, channelManager b) in
  {| webSocketManager := webSocketManager b;
     productManager := st.1;
     channelManager := st.2 |}.

(** A snapshot [q] is not ahead of a catalog: the catalog's snapshot of
    the same product is strictly newer, or it is [q] itself. *)
Definition notAhead (catalog : list Product.IProduct)
    (q : Product.IProduct) : Prop :=
  ∀ p, p ∈ catalog → Product.productId p = Product.productId q →
       (Product.lastUpdated q < Product.lastUpdated p)%Z ∨ q = p.

(** The snapshots an event can bring to the cache. *)
Definition polled (e : Event) : list Product.IProduct :=
  match e with
  | FallbackPollTick _ (ProductManager.ApiSuccess products)
  | RefreshButton _ (ProductManager.ApiSuccess products) => products
  | _ => []
  end.

(** Every cached entry is the entry of a snapshot, under that
    snapshot's id, and the snapshot is not ahead of the catalog. *)
Definition cacheNotAhead (catalog : list Product.IProduct)
    (c : gmap string ProductManager.CacheEntry) : Prop :=
  ∀ id e, c !! id = Some e →
          e = entryOf (ProductManager.product e)
          ∧ Product.productId (ProductManager.product e) = id
          ∧ notAhead catalog (ProductManager.product e).

(** Every snapshot that the events of a history bring is not ahead of the
    catalog. *)
Definition historyNotAhead (catalog : list Product.IProduct)
    (es : list Event) : Prop :=
  Forall (fun e => Forall (notAhead catalog) (polled e)) es.

(** [e], handled in state [b], is a completed poll of the catalog: a
    call of [pollForUpdates] that the rate limit lets through and that the
    read API answers with the catalog. *)
Definition completedPoll (catalog : list Product.IProduct) (b : t)
    (e : Event) : Prop :=
  ∃ now : Z,
    (5000 ≤ now - ProductManager.lastPollTime (productManager b))%Z
    ∧ (e = RefreshButton now (ProductManager.ApiSuccess catalog)
       ∨ (WebSocketManager.fallbackPollingInterval (webSocketManager b) = true
          ∧ e = FallbackPollTick now (ProductManager.ApiSuccess catalog))).

End Bot.

(** ** dashboard/lib/websocket-server.ts (the broadcast hub) *)

Module WebSocketServer.

Import WebSocket.

Inductive ClientType := dashboard | bot.

#[global] Instance ClientType_eq_dec : EqDecision ClientType.
Proof. solve_decision. Defined.

(** [interface CustomWebSocket]; [socketId] stands for the identity of
    the socket object, which is what a JavaScript [Set] compares. *)
Record CustomWebSocket := {
  socketId : nat;
  readyState : ReadyState;
  isAlive : bool;
  clientType : ClientType
}.

(** The messages of the hub, before [JSON.stringify]. *)
Inductive Message :=
| CONNECTION_ESTABLISHED
| PONG
| PRODUCT_UPDATE (operation : string) (data : Payload)
| PRODUCT_UPDATE_REQUIRED (productId : string) (operation : string)
| TICKET_UPDATE (operation : string).

#[global] Instance Message_eq_dec : EqDecision Message.
Proof. solve_decision. Defined.

(** [JSON.stringify({ ...message, timestamp: Date.now() })]. *)
Definition Frame : Type := Message * Z.

(** [clients] is the [Set] in insertion order; [delivered] records the
    frames that a socket's [send] accepted, oldest first, each with the
    socket it went to. *)
Record t := {
  clients : list CustomWebSocket;
  delivered : list (nat * Frame)
}.

Definition init : t := {| clients := []; delivered := [] |}.

(** How a method ended: it returned, or an exception left it; either
    way with the state it reached. *)
Inductive Completion :=
| Returned (h : t)
| Threw (h : t).

Definition stateOf (c : Completion) : t :=
  match c with Returned h | Threw h => h end.

Definition isOpen (c : CustomWebSocket) : bool :=
  bool_decide (readyState c = OPEN).

Section Transport.

(** [socket.send] belongs to the [ws] library. Whether a call of it on
    a given socket raises is a parameter of the hub. *)
Variable sendRaises : CustomWebSocket -> bool.

(** [this.clients.forEach(client => { if (guard) client.send(messageStr) })]:
    the sockets are visited in order, nothing catches what [send]
    raises, and nothing touches [clients]. *)
Fixpoint forEachSend (guard : CustomWebSocket -> bool) (messageStr : Frame)
    (cs : list CustomWebSocket) (h : t) : Completion :=
  match cs with
  | [] => Returned h
  | client :: rest =>
      if guard client then
        if sendRaises client then Threw h
        else forEachSend guard messageStr rest
               {| clients := clients h;
                  delivered := delivered h ++ [(socketId client, messageStr)] |}
      else forEachSend guard messageStr rest h
  end.

Definition broadcast (now : Z) (message : Message) (h : t) : Completion :=
  let messageStr := (message, now) in
  forEachSend isOpen messageStr (clients h) h.

Definition broadcastToType (ty : ClientType) (now : Z) (message : Message)
    (h : t) : Completion :=
  let messageStr := (message, now) in
  forEachSend (fun client => isOpen client
                             && bool_decide (clientType client = ty))
              messageStr (clients h) h.

Definition sendToClient (client : CustomWebSocket) (now : Z)
    (message : Message) (h : t) : Completion :=
  forEachSend isOpen (message, now) [client] h.

End Transport.

(** [this.clients.add(ws)] and [this.clients.delete(ws)]. *)
Definition add (client : CustomWebSocket) (cs : list CustomWebSocket)
    : list CustomWebSocket :=
  if bool_decide (socketId client ∈ socketId <$> cs) then cs
  else cs ++ [client].

Definition delete (client : CustomWebSocket) (cs : list CustomWebSocket)
    : list CustomWebSocket :=
  filter (fun c => socketId c ≠ socketId client) cs.

(** The ['close'] and ['error'] handlers registered for every accepted
    socket; [onConnection] below registers them. *)
Definition onClose (client : CustomWebSocket) (h : t) : t :=
  {| clients := delete client (clients h); delivered := delivered h |}.

Definition onError (client : CustomWebSocket) (h : t) : t :=
  {| clients := delete client (clients h); delivered := delivered h |}.

(** The ['connection'] handler: the socket is marked alive and
    registered, its type is read from the query string ([ty]), and it is
    sent the welcome message. *)
Definition onConnection (sendRaises : CustomWebSocket -> bool)
    (now : Z) (ws : CustomWebSocket) (ty : ClientType) (h : t) : Completion :=
  let ws := {| socketId := socketId ws; readyState := readyState ws;
               isAlive := true; clientType := ty |} in
  sendToClient sendRaises ws now CONNECTION_ESTABLISHED
    {| clients := add ws (clients h); delivered := delivered h |}.

(** Who was sent a given frame. *)
Definition recipients (f : Frame) (h : t) : list nat :=
  (filter (fun d => d.2 = f) (delivered h)).*1.

(** The [type] field of a message of the hub. *)
Definition messageType (m : Message) : string :=
  match m with
  | CONNECTION_ESTABLISHED => "CONNECTION_ESTABLISHED"
  | PONG => "PONG"
  | PRODUCT_UPDATE _ _ => "PRODUCT_UPDATE"
  | PRODUCT_UPDATE_REQUIRED _ _ => "PRODUCT_UPDATE_REQUIRED"
  | TICKET_UPDATE _ => "TICKET_UPDATE"
  end.

(** [handleMessage(ws, message)]: [parsedType] is [parsed.type], and
    [None] when [JSON.parse] or the access to [type] throws. The body is
    one [try]: what [send] raises is caught and logged. *)
Definition handleMessage (sendRaises : CustomWebSocket -> bool) (now : Z)
    (ws : CustomWebSocket) (parsedType : option string) (h : t) : t :=
  match parsedType with
  | None => h
  | Some ty =>
      if (ty =? "PING")%string then stateOf (sendToClient sendRaises ws now PONG h)
      else if (ty =? "SUBSCRIBE_PRODUCTS")%string then h
      else h
  end.

(** The ['pong'] handler of a socket: [ws.isAlive = true]. *)
Definition onPong (ws : CustomWebSocket) (h : t) : t :=
  {| clients :=
       (fun c => if bool_decide (socketId c = socketId ws)
                 then {| socketId := socketId c; readyState := readyState c;
                         isAlive := true; clientType := clientType c |}
                 else c) <$> clients h;
     delivered := delivered h |}.

(** [ws.terminate()]: a socket that is not closed yet is closing from
    now on. *)
Definition terminate (c : CustomWebSocket) : CustomWebSocket :=
  if bool_decide (readyState c = CLOSED) then c
  else {| socketId := socketId c; readyState := CLOSING;
          isAlive := isAlive c; clientType := clientType c |}.

(** One tick of the interval of [startHeartbeat]: a socket that is not
    alive is terminated, an alive one is marked not alive and pinged.
    The result is the sockets after the tick, the sockets that were
    pinged, and whether a [ping] raised and ended the loop;
    [pingRaises] says on which sockets [ping] raises. *)
Fixpoint forEachHeartbeat (pingRaises : CustomWebSocket -> bool)
    (cs : list CustomWebSocket) : list CustomWebSocket * list nat * bool :=
  match cs with
  | [] => ([], [], false)
  | ws :: rest =>
      if negb (isAlive ws) then
        let r := forEachHeartbeat pingRaises rest in
        (terminate ws :: r.1.1, r.1.2, r.2)
      else
        let ws' := {| socketId := socketId ws; readyState := readyState ws;
                      isAlive := false; clientType := clientType ws |} in
        if pingRaises ws' then (ws' :: rest, [], true)
        else
          let r := forEachHeartbeat pingRaises rest in
          (ws' :: r.1.1, socketId ws :: r.1.2, r.2)
  end.

Definition heartbeatTick (pingRaises : CustomWebSocket -> bool) (h : t) : t :=
  {| clients := (forEachHeartbeat pingRaises (clients h)).1.1;
     delivered := delivered h |}.

(** [cleanup]: every socket is terminated and the set is cleared. *)
Definition cleanup (h : t) : t :=
  {| clients := []; delivered := delivered h |}.

End WebSocketServer.

(** ** shared/schemas/change-streams.ts (the change feed watcher) *)

Module ChangeStreams.

(** A notification of the store's change feed: [operationType], the
    names of the fields of [updateDescription.updatedFields] (none when
    the notification has no [updateDescription]), [fullDocument] and the
    key of [documentKey]. *)
Record Change := {
  operationType : string;
  updatedFields : list string;
  fullDocument : option Product.IProduct;
  documentKey : string
}.

Definition criticalFields : list string :=
  ["stock"; "price"; "isActive"; "lastUpdated"].

Section Store.

(** The store evaluates the pipeline. How it evaluates the clause
    [{ 'updateDescription.updatedFields': { $in: fields } }] on a
    notification is a parameter. *)
Variable updatedFieldsIn : Change -> list string -> bool.

(** The [$match] stage of [productChangeStream]: one [$or] of four
    clauses. *)
Definition productMatch (change : Change) : bool :=
  (operationType change =? "insert")%string
  || (operationType change =? "update")%string
  || (operationType change =? "delete")%string
  || updatedFieldsIn change criticalFields.

Variable sendRaises : WebSocketServer.CustomWebSocket -> bool.

(** The ['change'] handler: a [PRODUCT_UPDATE] for everyone, then a
    [PRODUCT_UPDATE_REQUIRED] for the bots. *)
Definition onChange (now : Z) (change : Change) (h : WebSocketServer.t)
    : WebSocketServer.Completion :=
  let data := match fullDocument change with
              | Some p => FullDocument p
              | None => DocumentKey (documentKey change)
              end in
  let productId := match fullDocument change with
                   | Some p => Product.productId p
                   | None => documentKey change
                   end in
  match WebSocketServer.broadcast sendRaises now
          (WebSocketServer.PRODUCT_UPDATE (operationType change) data) h with
  | WebSocketServer.Threw h' => WebSocketServer.Threw h'
  | WebSocketServer.Returned h' =>
      WebSocketServer.broadcastToType sendRaises WebSocketServer.bot now
        (WebSocketServer.PRODUCT_UPDATE_REQUIRED productId
           (operationType change)) h'
  end.

(** A notification reaches the handler when the pipeline lets it
    through. *)
Definition notify (now : Z) (change : Change) (h : WebSocketServer.t)
    : WebSocketServer.Completion :=
  if productMatch change then onChange now change h
  else WebSocketServer.Returned h.

End Store.

(** The clause read as "one of the updated fields is listed". *)
Definition touchesAny (change : Change) (fields : list string) : bool :=
  existsb (fun f => bool_decide (f ∈ fields)) (updatedFields change).

(** The filtering policy in the words of the specification: creations
    and deletions always, an update only when it touches a
    presentation-relevant field. *)
Definition spec_relevant (change : Change) : bool :=
  (operationType change =? "insert")%string
  || (operationType change =? "delete")%string
  || ((operationType change =? "update")%string
      && touchesAny change criticalFields).

End ChangeStreams.

(** ** middleware.ts *)

Module Middleware.

(** [s.startsWith(prefix)] and [s.includes(needle)]. *)
Definition startsWith (prefix s : string) : bool := String.prefix prefix s.

Fixpoint includes (needle s : string) : bool :=
  String.prefix needle s
  || match s with
     | EmptyString => false
     | String _ rest => includes needle rest
     end.

(** The [authorized] callback: [token] is the session token, if there is
    one, and [pathname] is [req.nextUrl.pathname]. *)
Definition authorized {Token : Type} (token : option Token)
    (pathname : string) : bool :=
  if startsWith "/api" pathname && negb (includes "/api/auth" pathname)
  then bool_decide (is_Some token)
  else true.

End Middleware.

(** ** shared/schemas/product.ts: the hooks of the schema *)

Module ProductSchema.

(** The virtual [isAvailable]. *)
Definition isAvailable (p : Product.IProduct) : bool :=
  Product.isActive p && (0 <? Product.stock p)%Z.

(** The [pre('save')] hook, for a document [p] that is saved at time
    [now]. [isModified] is the method of the document: it answers from the
    paths that were assigned since the document was loaded (a path that
    was changed and set back counts, and so does every path of a new
    document), not from a comparison of values. The hook asks it about
    three paths. *)
Definition preSave (now : Z) (isModified : string -> bool)
    (p : Product.IProduct) : Product.IProduct :=
  if isModified "price" || isModified "stock" || isModified "isActive"
  then {| Product.productId := Product.productId p;
          Product.name := Product.name p;
          Product.price := Product.price p;
          Product.stock := Product.stock p;
          Product.isActive := Product.isActive p;
          Product.lastUpdated := now |}
  else p.

End ProductSchema.

(** ** ProductEmbedManager, PurchaseFlow and the button dispatch of
    bot/src/index.ts *)

Module ProductEmbedManager.

(** The custom ids and the disabled flag that [createProductEmbed] gives
    to the buttons of a product. *)
Definition buyCustomId (p : Product.IProduct) : string :=
  ("buy_btn:" ++ Product.productId p)%string.

Definition refreshCustomId (p : Product.IProduct) : string :=
  ("refresh_btn:" ++ Product.productId p)%string.

Definition buyDisabled (p : Product.IProduct) : bool :=
  (Product.stock p <=? 0)%Z || negb (Product.isActive p).

End ProductEmbedManager.

Module PurchaseFlow.

(** [s.split(sep)] for a separator of one character. *)
Fixpoint split (sep : Ascii.ascii) (s : string) : list string :=
  match s with
  | EmptyString => [EmptyString]
  | String c rest =>
      if Ascii.eqb c sep then EmptyString :: split sep rest
      else match split sep rest with
           | [] => [String c EmptyString]
           | w :: ws => String c w :: ws
           end
  end.

(** How [handleBuyButton] answers. *)
Inductive Outcome :=
| ProductNotFound
| OutOfStock
| CreateTicket (product : Product.IProduct).

(** [handleBuyButton] up to the call of [createPurchaseTicket]:
    [customId.split(':')[1]] is looked up in the cache. *)
Definition handleBuyButton (customId : string) (pm : ProductManager.t)
    : Outcome :=
  match split ":"%char customId !! 1%nat with
  | None => ProductNotFound
  | Some productId =>
      match ProductManager.getCachedProduct productId pm with
      | None => ProductNotFound
      | Some product =>
          if (Product.stock product <=? 0)%Z || negb (Product.isActive product)
          then OutOfStock
          else CreateTicket product
      end
  end.

End PurchaseFlow.

Module DiscordBot.

(** Where [handleButtonInteraction] sends a button. *)
Inductive Route := Buy | Payment | Refresh | Unhandled.

Definition handleButtonInteraction (customId : string) : Route :=
  if Middleware.startsWith "buy_btn:" customId then Buy
  else if (customId =? "payment_btn")%string then Payment
  else if (customId =? "payment_back")%string then Payment
  else if (customId =? "payment_instructions")%string then Payment
  else if Middleware.startsWith "refresh_btn:" customId then Refresh
  else Unhandled.

End DiscordBot.

(** ** PaymentManager *)

Module PaymentManager.

(** [interface PaymentConfig]: objects are the lists of their entries. *)
Record PaymentConfig := {
  bank_transfer : list (string * (string * string));
  ewallet : list (string * (string * string));
  qris : string;
  crypto : option (list (string * (string * string)))
}.

Record t := {
  paymentConfig : option PaymentConfig;
  lastFetch : Z
}.

Definition init : t := {| paymentConfig := None; lastFetch := 0 |}.

Definition cacheDuration : Z := 300000.

Definition getDefaultConfig : PaymentConfig :=
  {| bank_transfer := [("bca", ("", "")); ("bni", ("", ""))];
     ewallet := [("gopay", ("", "")); ("ovo", ("", ""))];
     qris := "";
     crypto := None |}.

Inductive FetchResult :=
| FetchFailed
| ApiError
| ApiSuccess (data : PaymentConfig).

(** [getPaymentConfig], called at time [now]; if it fetches, [r] is the
    answer and [fetchedAt] the time at which the answer is stored. *)
Definition getPaymentConfig (now fetchedAt : Z) (r : FetchResult) (s : t)
    : PaymentConfig * t :=
  let fetch :=
    match r with
    | ApiSuccess data =>
        (data, {| paymentConfig := Some data; lastFetch := fetchedAt |})
    | ApiError | FetchFailed => (getDefaultConfig, s)
    end in
  match paymentConfig s with
  | Some config =>
      if (now - lastFetch s <? cacheDuration)%Z then (config, s) else fetch
  | None => fetch
  end.

(** The values of the options of the menu of [handlePaymentButton]. *)
Definition menuOptions (config : PaymentConfig) : list string :=
  ["bank_transfer"; "ewallet"; "qris"]
  ++ match crypto config with Some _ => ["crypto"] | None => [] end.

End PaymentManager.

(** ** ChannelManager: the map from products to their messages *)

Module ChannelMessages.

(** [productMessages]: product id to message id. *)
Definition t := gmap string string.

Definition getProductMessageId (productId : string) (m : t) : option string :=
  m !! productId.

Definition cacheProductMessage (productId messageId : string) (m : t) : t :=
  <[productId := messageId]> m.

(** [updateProductEmbed] in full. [editable messageId] says whether some
    cached text channel yields the message and accepts the edit. The
    result is the map afterwards and the edit made, if any: the message
    and the product it now shows. A payload without [productId] finds no
    message. *)
Definition updateProductEmbed (editable : string -> bool) (product : Payload)
    (m : t) : t * option (string * Product.IProduct) :=
  match product with
  | DocumentKey _ => (m, None)
  | FullDocument p =>
      match m !! Product.productId p with
      | None => (m, None)
      | Some messageId =>
          if editable messageId then (m, Some (messageId, p))
          else (delete (Product.productId p) m, None)
      end
  end.

(** The edits that a trace of calls makes, oldest first. *)
Definition replay (editable : string -> bool) (calls : ChannelManager.t)
    (m : t) : t * list (string * Product.IProduct) :=
  foldl (fun acc product =>
           let r := updateProductEmbed editable product acc.1 in
           (r.1, acc.2 ++ match r.2 with Some e => [e] | None => [] end))
        (m, []) calls.

End ChannelMessages.

(** ** WebSocketClient (the second client class of the file) *)

Module WebSocketClient.

Import WebSocket.

(** The fields of the class, with the pending reconnect timers and the
    sent messages as for [WebSocketManager]. *)
Record t := {
  ws : option ReadyState;
  reconnectAttempts : nat;
  isConnected : bool;
  heartbeatInterval : bool;
  lastHeartbeat : Z;
  reconnectTimers : list Z;
  transmitted : list WebSocketManager.Outgoing
}.

Definition maxReconnectAttempts : nat := 5.
Definition reconnectDelay : Z := 5000.

Definition init : t := {|
  ws := None; reconnectAttempts := 0; isConnected := false;
  heartbeatInterval := false; lastHeartbeat := 0; reconnectTimers := [];
  transmitted := []
|}.

(** How a method ended: it returned, or an exception left it; either
    way with the state it reached. *)
Inductive Completion :=
| Returned (s : t)
| Threw (s : t).

Definition stateOf (c : Completion) : t :=
  match c with Returned s | Threw s => s end.

Definition send (message : WebSocketManager.Outgoing) (s : t) : t :=
  if isConnected s && bool_decide (ws s = Some OPEN)
  then {| ws := ws s; reconnectAttempts := reconnectAttempts s;
          isConnected := isConnected s;
          heartbeatInterval := heartbeatInterval s;
          lastHeartbeat := lastHeartbeat s;
          reconnectTimers := reconnectTimers s;
          transmitted := transmitted s ++ [message] |}
  else s.

(** The ['open'] handler. *)
Definition onOpen (now : Z) (s : t) : t :=
  send (WebSocketManager.SUBSCRIBE_PRODUCTS None)
    {| ws := ws s; reconnectAttempts := 0; isConnected := true;
       heartbeatInterval := true; lastHeartbeat := now;
       reconnectTimers := reconnectTimers s; transmitted := transmitted s |}.

(** [handleMessage]. The class calls two methods on its product manager,
    [handleProductUpdate] here and [activateFallbackMode] in
    [handleDisconnection]; the [ProductManager] of the repository has
    neither, so each of the two calls raises a [TypeError]. *)
Definition handleMessage (now : Z) (message : WebSocketManager.WebSocketMessage)
    (s : t) : Completion :=
  if (WebSocketManager.type message =? "CONNECTION_ESTABLISHED")%string
  then Returned s
  else if (WebSocketManager.type message =? "PRODUCT_UPDATE")%string
  then Threw s
  else if (WebSocketManager.type message =? "PONG")%string then
    Returned {| ws := ws s; reconnectAttempts := reconnectAttempts s;
                isConnected := isConnected s;
                heartbeatInterval := heartbeatInterval s;
                lastHeartbeat := now;
                reconnectTimers := reconnectTimers s;
                transmitted := transmitted s |}
  else Returned s.

(** The ['message'] handler: [handleMessage] inside a [try] whose
    [catch] logs. *)
Definition onMessage (now : Z) (message : WebSocketManager.WebSocketMessage)
    (s : t) : t :=
  stateOf (handleMessage now message s).

(** [handleDisconnection]: nothing catches what the last branch
    raises. *)
Definition handleDisconnection (s : t) : Completion :=
  if (reconnectAttempts s <? maxReconnectAttempts)%nat then
    let attempts := S (reconnectAttempts s) in
    let delay := (reconnectDelay * Z.of_nat attempts)%Z in
    Returned {| ws := ws s; reconnectAttempts := attempts;
                isConnected := false;
                heartbeatInterval := false; lastHeartbeat := lastHeartbeat s;
                reconnectTimers := reconnectTimers s ++ [delay];
                transmitted := transmitted s |}
  else
    Threw {| ws := ws s; reconnectAttempts := reconnectAttempts s;
             isConnected := false;
             heartbeatInterval := false; lastHeartbeat := lastHeartbeat s;
             reconnectTimers := reconnectTimers s;
             transmitted := transmitted s |}.

(** [k] disconnections in a row, as long as the handler returns. *)
Fixpoint disconnections (k : nat) (s : t) : Completion :=
  match k with
  | 0 => Returned s
  | S k =>
      match handleDisconnection s with
      | Returned s' => disconnections k s'
      | Threw s' => Threw s'
      end
  end.

End WebSocketClient.

(** ** TicketSystem: the name of a ticket channel *)

Module TicketSystem.

(** [toLowerCase] and the test of the class [[a-z0-9]], on a character
    of the ASCII range; other characters are left alone by the first and
    fail the second. *)
Definition toLowerCase (c : Ascii.ascii) : Ascii.ascii :=
  if (("A" <=? c) && (c <=? "Z"))%char
  then Ascii.ascii_of_nat (Ascii.nat_of_ascii c + 32)
  else c.

Definition isLowerAlnum (c : Ascii.ascii) : bool :=
  ((("a" <=? c) && (c <=? "z")) || (("0" <=? c) && (c <=? "9")))%char.

(** [s.toLowerCase().replace(/[^a-z0-9]/g, '').substring(0, n)]. *)
Definition sanitize (n : nat) (s : string) : string :=
  string_of_list_ascii
    (take n (filter (fun c => isLowerAlnum c = true)
               (toLowerCase <$> list_ascii_of_string s))).

(** [Date.now().toString().slice(-4)]. *)
Definition lastFour (now : N) : string :=
  let digits := list_ascii_of_string (NilEmpty.string_of_uint (N.to_uint now)) in
  string_of_list_ascii (drop (length digits - 4) digits).

Definition generateChannelName (username productName : string) (now : N)
    : string :=
  ("ticket-" ++ sanitize 10 username ++ "-" ++ sanitize 15 productName
   ++ "-" ++ lastFour now)%string.

End TicketSystem.

(** ** Sample data *)

Module Sample.

(** Product [P1] with a given [lastUpdated] and stock. *)
Definition widget (version stock : Z) : Product.IProduct :=
  {| Product.productId := "P1";
     Product.name := "Widget";
     Product.price := 1500;
     Product.stock := stock;
     Product.isActive := true;
     Product.lastUpdated := version |}.

(** A bot that connected and then met six failed connections in a row,
    each reconnect timer firing before the next failure. *)
Definition exhausted : Bot.t :=
  Bot.run Bot.init
    ([Bot.Connect]
     ++ concat (replicate 5 [Bot.SocketClose; Bot.ReconnectTimer])
     ++ [Bot.SocketClose]).

(** A hub with three registered sockets, all open. *)
Definition socket (id : nat) (r : WebSocket.ReadyState)
    : WebSocketServer.CustomWebSocket :=
  {| WebSocketServer.socketId := id;
     WebSocketServer.readyState := r;
     WebSocketServer.isAlive := true;
     WebSocketServer.clientType := WebSocketServer.bot |}.

Definition threeOpen : WebSocketServer.t :=
  {| WebSocketServer.clients :=
       [socket 1 WebSocket.OPEN; socket 2 WebSocket.OPEN; socket 3 WebSocket.OPEN];
     WebSocketServer.delivered := [] |}.

(** The same hub, its second socket closing. *)
Definition oneClosing : WebSocketServer.t :=
  {| WebSocketServer.clients :=
       [socket 1 WebSocket.OPEN; socket 2 WebSocket.CLOSING;
        socket 3 WebSocket.OPEN];
     WebSocketServer.delivered := [] |}.

(** A transport on which no send raises. *)
Definition noneRaises (c : WebSocketServer.CustomWebSocket) : bool := false.

Definition stockUpdate : WebSocketServer.Message :=
  WebSocketServer.PRODUCT_UPDATE "update" (FullDocument (widget 7 5)).

(** An update notification that touches the description only. *)
Definition descriptionEdit : ChangeStreams.Change :=
  {| ChangeStreams.operationType := "update";
     ChangeStreams.updatedFields := ["description"];
     ChangeStreams.fullDocument := Some (widget 7 5);
     ChangeStreams.documentKey := "P1" |}.

(** A bot whose cache holds [P1] at version 7, as a first poll at time
    5000 leaves it. *)
Definition polledOnce : Bot.t :=
  Bot.run Bot.init
    [Bot.RefreshButton 5000 (ProductManager.ApiSuccess [widget 7 5])].

(** [P1] of version 7 under another name. *)
Definition renamed : Product.IProduct :=
  {| Product.productId := "P1";
     Product.name := "Gadget";
     Product.price := 1500;
     Product.stock := 5;
     Product.isActive := true;
     Product.lastUpdated := 7 |}.

(** A payment configuration with a cryptocurrency wallet. *)
Definition withCrypto : PaymentManager.PaymentConfig :=
  {| PaymentManager.bank_transfer := [("bca", ("123", "Shop"))];
     PaymentManager.ewallet := [("gopay", ("0812", "Transfer"))];
     PaymentManager.qris := "https://example.org/qr.png";
     PaymentManager.crypto := Some [("bitcoin", ("bc1q", "Send"))] |}.

(** A manager that is connected over an open socket since time 0. *)
Definition connected : WebSocketManager.t :=
  WebSocketManager.onOpen 0 None
    (WebSocketManager.set_ws (Some WebSocket.OPEN) WebSocketManager.init).

(** A [PONG] of the hub as the bot parses it; the handler reads neither
    [operation] nor [data] of it. *)
Definition pong (timestamp : Z) : WebSocketManager.WebSocketMessage :=
  {| WebSocketManager.type := "PONG";
     WebSocketManager.operation := "";
     WebSocketManager.data := DocumentKey "";
     WebSocketManager.timestamp := timestamp |}.

End Sample.

(** * Properties *)

(** ** The cache and its staleness test *)

Section Cache.

Import ProductManager.

Implicit Types (st : ProductManager.t * ChannelManager.t).
Implicit Types (p : Product.IProduct).

Lemma isNewOrUpdated_true (cached : option CacheEntry) (v : Z) :
  isNewOrUpdated cached v = true
  ↔ cached = None ∨ ∃ e, cached = Some e ∧ (lastUpdated e < v)%Z.
Proof.
  destruct cached as [e|]; simpl.
  - rewrite Z.ltb_lt. split.
    + intros Hlt. right. by exists e.
    + intros [Hnone | (e' & He & Hlt)]; [done | by simplify_eq].
  - split; [by left | done].
Qed.

Lemma isNewOrUpdated_false (cached : option CacheEntry) (v : Z) :
  isNewOrUpdated cached v = false
  ↔ ∃ e, cached = Some e ∧ (v ≤ lastUpdated e)%Z.
Proof.
  destruct cached as [e|]; simpl.
  - rewrite Z.ltb_ge. split.
    + intros Hle. by exists e.
    + intros (e' & He & Hle). by simplify_eq.
  - split; [done | by intros (e & He & _)].
Qed.

Lemma processProduct_applied st p :
  isNewOrUpdated (productCache st.1 !! Product.productId p)
                 (Product.lastUpdated p) = true →
  processProduct st p
  = (set_productCache
       (<[Product.productId p := Bot.entryOf p]> (productCache st.1)) st.1,
     st.2 ++ [FullDocument p]).
Proof. intros H. unfold processProduct. by rewrite H. Qed.

Lemma processProduct_skipped st p :
  isNewOrUpdated (productCache st.1 !! Product.productId p)
                 (Product.lastUpdated p) = false →
  processProduct st p = st.
Proof. intros H. unfold processProduct. by rewrite H. Qed.

(** One pass of the loop body never lowers a cached [lastUpdated] and
    never drops an entry. *)
Lemma processProduct_version st p id (v : Z) :
  lastUpdated <$> productCache st.1 !! id = Some v →
  ∃ v', lastUpdated <$> productCache (processProduct st p).1 !! id = Some v'
        ∧ (v ≤ v')%Z.
Proof.
  intros Hv.
  destruct (isNewOrUpdated (productCache st.1 !! Product.productId p)
              (Product.lastUpdated p)) eqn:Hnew.
  - rewrite processProduct_applied by done. simpl.
    destruct (decide (Product.productId p = id)) as [<-|Hne].
    + rewrite lookup_insert_eq. simpl. eexists; split; [done|].
      apply isNewOrUpdated_true in Hnew as [Hnone | (e & He & Hlt)].
      * rewrite Hnone in Hv. done.
      * rewrite He in Hv. simpl in Hv. simplify_eq. lia.
    + rewrite lookup_insert_ne by done. exists v. split; [done | lia].
  - rewrite processProduct_skipped by done. exists v. split; [done | lia].
Qed.

Lemma processProductUpdates_version products st id (v : Z) :
  lastUpdated <$> productCache st.1 !! id = Some v →
  ∃ v', lastUpdated <$> productCache (processProductUpdates products st).1 !! id
        = Some v' ∧ (v ≤ v')%Z.
Proof.
  revert st v. induction products as [|p products IH]; intros st v Hv.
  - exists v. split; [done | lia].
  - destruct (processProduct_version st p id v Hv) as (v1 & Hv1 & Hle1).
    destruct (IH (processProduct st p) v1 Hv1) as (v2 & Hv2 & Hle2).
    exists v2. split; [exact Hv2 | lia].
Qed.

Lemma pollForUpdates_version now r st id (v : Z) :
  lastUpdated <$> productCache st.1 !! id = Some v →
  ∃ v', lastUpdated <$> productCache (pollForUpdates now r st).1 !! id
        = Some v' ∧ (v ≤ v')%Z.
Proof.
  intros Hv. unfold pollForUpdates.
  destruct (now - lastPollTime st.1 <? 5000)%Z.
  - exists v. split; [done | lia].
  - destruct r as [| |products]; try (exists v; split; [done | lia]).
    by apply processProductUpdates_version.
Qed.

End Cache.

(** ** The bot: what its events do to the cache *)

Section BotCache.

Import ProductManager.

Implicit Types (b : Bot.t) (e : Bot.Event) (p : Product.IProduct).

Lemma withSocket_cache f b : Bot.cache (Bot.withSocket f b) = Bot.cache b.
Proof. done. Qed.

Lemma withPoll_version now r b id (v : Z) :
  Bot.cachedVersion id b = Some v →
  ∃ v', Bot.cachedVersion id (Bot.withPoll now r b) = Some v' ∧ (v ≤ v')%Z.
Proof.
  intros Hv.
  exact (pollForUpdates_version now r
           (Bot.productManager b, Bot.channelManager b) id v Hv).
Qed.

Lemma step_version b e id (v : Z) :
  Bot.cachedVersion id b = Some v →
  ∃ v', Bot.cachedVersion id (Bot.step b e) = Some v' ∧ (v ≤ v')%Z.
Proof.
  intros Hv.
  assert (Hsame : ∃ v', Bot.cachedVersion id b = Some v' ∧ (v ≤ v')%Z)
    by (exists v; split; [done | lia]).
  destruct e as [ |now g|now m| | | |now|now r|now r| ]; simpl; try exact Hsame.
  - destruct (WebSocketManager.reconnectTimers (Bot.webSocketManager b));
      exact Hsame.
  - destruct (WebSocketManager.heartbeatInterval (Bot.webSocketManager b));
      exact Hsame.
  - destruct (WebSocketManager.fallbackPollingInterval (Bot.webSocketManager b));
      [by apply withPoll_version | exact Hsame].
  - by apply withPoll_version.
Qed.

Lemma run_version es b id (v : Z) :
  Bot.cachedVersion id b = Some v →
  ∃ v', Bot.cachedVersion id (Bot.run b es) = Some v' ∧ (v ≤ v')%Z.
Proof.
  revert b v. induction es as [|e es IH]; intros b v Hv.
  - exists v. split; [done | lia].
  - destruct (step_version b e id v Hv) as (v1 & Hv1 & Hle1).
    destruct (IH (Bot.step b e) v1 Hv1) as (v2 & Hv2 & Hle2).
    exists v2. split; [exact Hv2 | lia].
Qed.

(** A pushed message never touches the product manager. *)
Lemma push_productManager now m b :
  Bot.productManager (Bot.step b (Bot.SocketMessage now m)) = Bot.productManager b.
Proof. done. Qed.

Lemma viaPush_insert_update now op p b :
  op = "insert" ∨ op = "update" →
  Bot.viaPush now op p b
  = {| Bot.webSocketManager := Bot.webSocketManager b;
       Bot.productManager := Bot.productManager b;
       Bot.channelManager := Bot.channelManager b ++ [FullDocument p] |}.
Proof. by intros [-> | ->]. Qed.

Lemma viaPoll_applied p b :
  isNewOrUpdated (Bot.cache b !! Product.productId p) (Product.lastUpdated p)
  = true →
  Bot.viaPoll p b
  = {| Bot.webSocketManager := Bot.webSocketManager b;
       Bot.productManager :=
         set_productCache (<[Product.productId p := Bot.entryOf p]> (Bot.cache b))
                          (Bot.productManager b);
       Bot.channelManager := Bot.channelManager b ++ [FullDocument p] |}.
Proof.
  intros H. unfold Bot.viaPoll, processProductUpdates. simpl.
  by rewrite processProduct_applied.
Qed.

Lemma viaPoll_skipped p b :
  isNewOrUpdated (Bot.cache b !! Product.productId p) (Product.lastUpdated p)
  = false →
  Bot.viaPoll p b = b.
Proof.
  intros H. unfold Bot.viaPoll, processProductUpdates. simpl.
  rewrite processProduct_skipped by done. by destruct b.
Qed.

(** Storing a snapshot that passed the test changes the cache. *)
Lemma applied_changes_cache p (c : gmap string CacheEntry) :
  isNewOrUpdated (c !! Product.productId p) (Product.lastUpdated p) = true →
  <[Product.productId p := Bot.entryOf p]> c ≠ c.
Proof.
  intros Hnew Heq.
  assert (Hl : c !! Product.productId p = Some (Bot.entryOf p))
    by (rewrite <- Heq; apply lookup_insert_eq).
  apply isNewOrUpdated_true in Hnew as [Hnone | (e & He & Hlt)].
  - by rewrite Hnone in Hl.
  - rewrite He in Hl. simplify_eq. simpl in Hlt. lia.
Qed.

End BotCache.

(** ** Push and poll *)

(** C1, as claimed, at a concrete input: on the bot as constructed, the
    snapshot of [P1] at version 1 leaves one cache when it is pushed and
    another when it is polled. *)
Lemma push_poll_cache_differ :
  Bot.cache (Bot.viaPush 0 "update" (Sample.widget 1 5) Bot.init)
  ≠ Bot.cache (Bot.viaPoll (Sample.widget 1 5) Bot.init).
Proof.
  intros H. apply (f_equal (fun c => c !! "P1")) in H.
  vm_compute in H. discriminate H.
Qed.

(** C1, amended. A snapshot pushed as an insert or an update reaches the
    presentation layer whatever its version and leaves the product
    manager, cache included, as it was. The same snapshot as an item of a
    poll passes the version test first: it is stored and presented when
    the test succeeds and changes nothing otherwise. So the two paths
    leave the same cache exactly when the snapshot fails the test, and
    the same presentation trace exactly when it passes. *)
Theorem push_and_poll_paths (b : Bot.t) (now : Z) (op : string)
    (p : Product.IProduct) :
  op = "insert" ∨ op = "update" →
  let fresh := ProductManager.isNewOrUpdated
                 (Bot.cache b !! Product.productId p) (Product.lastUpdated p) in
  Bot.viaPush now op p b
  = {| Bot.webSocketManager := Bot.webSocketManager b;
       Bot.productManager := Bot.productManager b;
       Bot.channelManager := Bot.channelManager b ++ [FullDocument p] |}
  ∧ Bot.viaPoll p b
    = (if fresh
       then {| Bot.webSocketManager := Bot.webSocketManager b;
               Bot.productManager :=
                 ProductManager.set_productCache
                   (<[Product.productId p := Bot.entryOf p]> (Bot.cache b))
                   (Bot.productManager b);
               Bot.channelManager := Bot.channelManager b ++ [FullDocument p] |}
       else b)
  ∧ (Bot.cache (Bot.viaPush now op p b) = Bot.cache (Bot.viaPoll p b)
     ↔ fresh = false)
  ∧ (Bot.channelManager (Bot.viaPush now op p b)
     = Bot.channelManager (Bot.viaPoll p b)
     ↔ fresh = true).
Proof.
  intros Hop fresh.
  rewrite (viaPush_insert_update now op p b Hop).
  destruct fresh eqn:Hfresh; subst fresh.
  - rewrite (viaPoll_applied p b Hfresh). simpl.
    repeat split; try done.
    intros Heq. exfalso.
    exact (applied_changes_cache p (Bot.cache b) Hfresh (eq_sym Heq)).
  - rewrite (viaPoll_skipped p b Hfresh). simpl.
    repeat split; try done.
    intros Heq. exfalso.
    apply (f_equal length) in Heq. rewrite length_app in Heq. simpl in Heq. lia.
Qed.

(** The theorem at a bot that has [P1] cached at version 7, for a pushed
    update of [P1] at version 9. *)
Lemma push_and_poll_paths_witness :
  Bot.cache (Bot.viaPush 6000 "update" (Sample.widget 9 3) Sample.polledOnce)
  = Bot.cache Sample.polledOnce
  ∧ Bot.cache (Bot.viaPoll (Sample.widget 9 3) Sample.polledOnce) !! "P1"
    = Some (Bot.entryOf (Sample.widget 9 3)).
Proof.
  pose proof (push_and_poll_paths Sample.polledOnce 6000 "update"
                (Sample.widget 9 3) (or_intror eq_refl)) as (Hpush & Hpoll & _).
  split.
  - rewrite Hpush. reflexivity.
  - vm_compute. reflexivity.
Defined.

(** ** The staleness rule *)

Section Staleness.

Import ProductManager.

Implicit Types (st : ProductManager.t * ChannelManager.t).
Implicit Types (p : Product.IProduct).

Lemma processProduct_stale_noop st p (e : CacheEntry) :
  productCache st.1 !! Product.productId p = Some e →
  (Product.lastUpdated p ≤ lastUpdated e)%Z →
  processProduct st p = st.
Proof.
  intros He Hle. apply processProduct_skipped.
  apply isNewOrUpdated_false. by exists e.
Qed.

Lemma processProduct_changes_iff st p :
  processProduct st p ≠ st
  ↔ productCache st.1 !! Product.productId p = None
    ∨ ∃ e, productCache st.1 !! Product.productId p = Some e
           ∧ (lastUpdated e < Product.lastUpdated p)%Z.
Proof.
  rewrite <- isNewOrUpdated_true.
  destruct (isNewOrUpdated (productCache st.1 !! Product.productId p)
              (Product.lastUpdated p)) eqn:Hnew.
  - split; [done | intros _].
    rewrite processProduct_applied by done. destruct st as [pm ch]. simpl.
    intros Heq. apply (f_equal snd), (f_equal length) in Heq. simpl in Heq.
    rewrite length_app in Heq. simpl in Heq. lia.
  - rewrite processProduct_skipped by done. split; [done | discriminate].
Qed.

(** After the loop body has seen [p], the cache holds an entry for it
    that is at least as new. *)
Lemma processProduct_covers st p :
  ∃ e, productCache (processProduct st p).1 !! Product.productId p = Some e
       ∧ (Product.lastUpdated p ≤ lastUpdated e)%Z.
Proof.
  destruct (isNewOrUpdated (productCache st.1 !! Product.productId p)
              (Product.lastUpdated p)) eqn:Hnew.
  - rewrite processProduct_applied by done. simpl.
    rewrite lookup_insert_eq. eexists. split; [done | simpl; lia].
  - rewrite processProduct_skipped by done.
    by apply isNewOrUpdated_false in Hnew.
Qed.

Lemma processProduct_idempotent st p :
  processProduct (processProduct st p) p = processProduct st p.
Proof.
  destruct (processProduct_covers st p) as (e & He & Hle).
  by apply (processProduct_stale_noop _ p e).
Qed.

Lemma covered_processProduct st p q :
  covered st p → covered (processProduct st q) p.
Proof.
  intros (e & He & Hle).
  destruct (processProduct_version st q (Product.productId p) (lastUpdated e))
    as (v' & Hv' & Hle'); [by rewrite He|].
  destruct (productCache (processProduct st q).1 !! Product.productId p)
    as [e'|] eqn:He'; [|done].
  exists e'. simpl in Hv'. simplify_eq. split; [done | lia].
Qed.

Lemma covered_processProductUpdates ps st p :
  covered st p → covered (processProductUpdates ps st) p.
Proof.
  revert st. induction ps as [|q ps IH]; intros st Hc; [done|].
  apply IH. by apply covered_processProduct.
Qed.

Lemma processProductUpdates_covers ps st p :
  p ∈ ps → covered (processProductUpdates ps st) p.
Proof.
  revert st. induction ps as [|q ps IH]; intros st Hin.
  - by apply elem_of_nil in Hin.
  - change (processProductUpdates (q :: ps) st)
      with (processProductUpdates ps (processProduct st q)).
    apply elem_of_cons in Hin as [-> | Hin].
    + apply covered_processProductUpdates, processProduct_covers.
    + by apply IH.
Qed.

Lemma processProductUpdates_all_covered ps st :
  Forall (covered st) ps → processProductUpdates ps st = st.
Proof.
  induction ps as [|q ps IH]; intros Hall; [done|].
  apply Forall_cons in Hall as [(e & He & Hle) Hall].
  unfold processProductUpdates. simpl.
  rewrite (processProduct_stale_noop st q e He Hle). by apply IH.
Qed.

Lemma processProductUpdates_idempotent ps st :
  processProductUpdates ps (processProductUpdates ps st)
  = processProductUpdates ps st.
Proof.
  apply processProductUpdates_all_covered, Forall_forall.
  intros p Hin. by apply processProductUpdates_covers.
Qed.

End Staleness.

(** C2, as claimed, at a concrete input: the bot holds [P1] at version
    7 and the hub pushes an update of [P1] at version 9, strictly newer.
    The snapshot is not applied: the cache does not hold version 9. Nor
    is a pushed snapshot of a product that is not cached. *)
Lemma pushed_newer_not_applied :
  ¬ (Bot.cachedVersion "P1"
       (Bot.viaPush 6000 "update" (Sample.widget 9 3) Sample.polledOnce)
     = Some 9%Z
     ∨ Bot.cachedVersion "P1" (Bot.viaPush 0 "insert" (Sample.widget 9 3) Bot.init)
       = Some 9%Z).
Proof. vm_compute. intros [H | H]; discriminate H. Qed.

(** C2, amended. Whatever the bot goes through (pushed messages, polls,
    socket events, in any order and number), a cached [lastUpdated] never
    decreases and an entry never disappears. On the poll path, a snapshot
    whose [lastUpdated] is at most the cached one changes nothing; the
    loop body of [processProductUpdates] changes the state exactly when no
    entry is cached or the snapshot is strictly newer than the cached
    entry, and then the cache holds the snapshot; processing the same
    snapshot, or the same list of snapshots, a second time changes
    nothing. A pushed message, whatever it carries, leaves the product
    manager as it was: a pushed snapshot is never stored, also when it is
    strictly newer than the cached one or nothing is cached. *)
Theorem staleness_rule :
  (∀ (b : Bot.t) (es : list Bot.Event) (id : string) (v : Z),
      Bot.cachedVersion id b = Some v →
      ∃ v', Bot.cachedVersion id (Bot.run b es) = Some v' ∧ (v ≤ v')%Z)
  ∧ (∀ (st : ProductManager.t * ChannelManager.t) (p : Product.IProduct)
       (e : ProductManager.CacheEntry),
        ProductManager.productCache st.1 !! Product.productId p = Some e →
        (Product.lastUpdated p ≤ ProductManager.lastUpdated e)%Z →
        ProductManager.processProduct st p = st)
  ∧ (∀ (st : ProductManager.t * ChannelManager.t) (p : Product.IProduct),
        ProductManager.processProduct st p ≠ st
        ↔ ProductManager.productCache st.1 !! Product.productId p = None
          ∨ ∃ e, ProductManager.productCache st.1 !! Product.productId p = Some e
                 ∧ (ProductManager.lastUpdated e < Product.lastUpdated p)%Z)
  ∧ (∀ (st : ProductManager.t * ChannelManager.t) (p : Product.IProduct),
        ProductManager.processProduct st p ≠ st →
        ProductManager.productCache (ProductManager.processProduct st p).1
          !! Product.productId p = Some (Bot.entryOf p))
  ∧ (∀ (st : ProductManager.t * ChannelManager.t) (p : Product.IProduct),
        ProductManager.processProduct (ProductManager.processProduct st p) p
        = ProductManager.processProduct st p)
  ∧ (∀ (ps : list Product.IProduct) (st : ProductManager.t * ChannelManager.t),
        ProductManager.processProductUpdates ps
          (ProductManager.processProductUpdates ps st)
        = ProductManager.processProductUpdates ps st)
  ∧ (∀ (b : Bot.t) (now : Z) (message : WebSocketManager.WebSocketMessage),
        Bot.productManager (Bot.step b (Bot.SocketMessage now message))
        = Bot.productManager b)
  ∧ (∀ (b : Bot.t) (now : Z) (op : string) (p : Product.IProduct),
        Bot.cache (Bot.viaPush now op p b) = Bot.cache b).
Proof.
  split; [|split; [|split; [|split; [|split; [|split; [|split]]]]]].
  - intros b es id v. apply run_version.
  - apply processProduct_stale_noop.
  - apply processProduct_changes_iff.
  - intros st p Hch.
    apply processProduct_changes_iff, isNewOrUpdated_true in Hch.
    rewrite processProduct_applied by done. simpl. apply lookup_insert_eq.
  - apply processProduct_idempotent.
  - apply processProductUpdates_idempotent.
  - intros b now message. apply push_productManager.
  - intros b now op p. unfold Bot.cache, Bot.viaPush.
    by rewrite push_productManager.
Qed.

(** The rule on the bot that holds [P1] at version 7: a polled snapshot
    that is older or equal is ignored, a newer one is stored when it is
    polled and left out when it is pushed. *)
Lemma staleness_rule_witness :
  Bot.viaPoll (Sample.widget 6 0) Sample.polledOnce = Sample.polledOnce
  ∧ Bot.viaPoll (Sample.widget 7 0) Sample.polledOnce = Sample.polledOnce
  ∧ Bot.cachedVersion "P1" (Bot.viaPoll (Sample.widget 8 0) Sample.polledOnce)
    = Some 8%Z
  ∧ Bot.cachedVersion "P1"
      (Bot.viaPush 6000 "update" (Sample.widget 8 0) Sample.polledOnce)
    = Some 7%Z.
Proof.
  destruct staleness_rule as (_ & Hstale & _ & _ & _ & _ & _ & Hpush).
  split; [|split; [|split]].
  - unfold Bot.viaPoll, ProductManager.processProductUpdates. cbn [foldl].
    rewrite (Hstale _ (Sample.widget 6 0) (Bot.entryOf (Sample.widget 7 5)));
      [reflexivity | vm_compute; reflexivity | vm_compute; discriminate].
  - unfold Bot.viaPoll, ProductManager.processProductUpdates. cbn [foldl].
    rewrite (Hstale _ (Sample.widget 7 0) (Bot.entryOf (Sample.widget 7 5)));
      [reflexivity | vm_compute; reflexivity | vm_compute; discriminate].
  - vm_compute. reflexivity.
  - unfold Bot.cachedVersion. rewrite Hpush. vm_compute. reflexivity.
Defined.

(** ** Deletions *)

(** C3, as claimed, at a concrete input: the bot holds [P1], the hub
    pushes the deletion of [P1], and [P1] is still cached. *)
Lemma delete_keeps_entry :
  Bot.cache
    (Bot.step Sample.polledOnce
       (Bot.SocketMessage 6000
          (Bot.productUpdate "delete" (DocumentKey "P1") 6000))) !! "P1"
  ≠ None.
Proof. vm_compute. discriminate. Qed.

(** C3, amended. No pushed message, a deletion included, changes the
    product cache, and neither does any sequence of pushed messages: after
    a pushed deletion, also when a stale update or a later insert or
    update of the same product is pushed behind it, the entry is cached as
    before. And whatever the bot goes through, an entry is never removed
    and its version is never lowered. *)
Theorem delete_leaves_cache :
  (∀ (b : Bot.t) (now : Z) (message : WebSocketManager.WebSocketMessage),
      Bot.cache (Bot.step b (Bot.SocketMessage now message)) = Bot.cache b)
  ∧ (∀ (b : Bot.t) (es : list Bot.Event),
        Forall (fun e => ∃ now message, e = Bot.SocketMessage now message) es →
        Bot.cache (Bot.run b es) = Bot.cache b)
  ∧ (∀ (b : Bot.t) (es : list Bot.Event) (id : string)
       (e : ProductManager.CacheEntry),
        Bot.cache b !! id = Some e →
        ∃ e', Bot.cache (Bot.run b es) !! id = Some e'
              ∧ (ProductManager.lastUpdated e ≤ ProductManager.lastUpdated e')%Z).
Proof.
  split; [|split].
  - intros b now message. unfold Bot.cache. by rewrite push_productManager.
  - intros b es. revert b. induction es as [|e es IH]; intros b Hall; [done|].
    apply Forall_cons in Hall as [(now & message & ->) Hall].
    change (Bot.run b (Bot.SocketMessage now message :: es))
      with (Bot.run (Bot.step b (Bot.SocketMessage now message)) es).
    rewrite IH by done. unfold Bot.cache. by rewrite push_productManager.
  - intros b es id e He.
    destruct (run_version es b id (ProductManager.lastUpdated e))
      as (v' & Hv' & Hle); [unfold Bot.cachedVersion; by rewrite He|].
    unfold Bot.cachedVersion in Hv'.
    destruct (Bot.cache (Bot.run b es) !! id) as [e'|]; [|done].
    exists e'. simpl in Hv'. by simplify_eq.
Qed.

(** The deletion of [P1] on the bot that holds [P1], followed by a stale
    pushed update and a pushed insert: the entry is still the one of
    version 7. *)
Lemma delete_leaves_cache_witness :
  Bot.cachedVersion "P1"
    (Bot.run Sample.polledOnce
       [Bot.SocketMessage 6000 (Bot.productUpdate "delete" (DocumentKey "P1") 6000);
        Bot.SocketMessage 6001
          (Bot.productUpdate "update" (FullDocument (Sample.widget 3 9)) 6001);
        Bot.SocketMessage 6002
          (Bot.productUpdate "insert" (FullDocument (Sample.widget 9 9)) 6002)])
  = Some 7%Z.
Proof.
  destruct delete_leaves_cache as (_ & Hrun & _).
  unfold Bot.cachedVersion. rewrite Hrun.
  - vm_compute. reflexivity.
  - repeat (apply List.Forall_cons; [by eexists _, _|]). apply List.Forall_nil.
Defined.

(** ** Convergence after a poll of the final catalog *)

Section Convergence.

Import ProductManager.

Implicit Types (st : ProductManager.t * ChannelManager.t).
Implicit Types (p q : Product.IProduct) (F : list Product.IProduct).

Lemma processProduct_other st q (id : string) :
  Product.productId q ≠ id →
  productCache (processProduct st q).1 !! id = productCache st.1 !! id.
Proof.
  intros Hne. unfold processProduct.
  destruct (isNewOrUpdated _ _); [|done]. simpl. by rewrite lookup_insert_ne.
Qed.

Lemma processProductUpdates_other ps st (id : string) :
  id ∉ Product.productId <$> ps →
  productCache (processProductUpdates ps st).1 !! id = productCache st.1 !! id.
Proof.
  revert st. induction ps as [|q ps IH]; intros st Hnin; [done|].
  rewrite fmap_cons, not_elem_of_cons in Hnin. destruct Hnin as [Hne Hnin].
  change (processProductUpdates (q :: ps) st)
    with (processProductUpdates ps (processProduct st q)).
  rewrite IH by done. by apply processProduct_other.
Qed.

Lemma processProduct_notAhead F st q :
  Bot.notAhead F q →
  Bot.cacheNotAhead F (productCache st.1) →
  Bot.cacheNotAhead F (productCache (processProduct st q).1).
Proof.
  intros Hq Hinv. unfold processProduct.
  destruct (isNewOrUpdated _ _); [|done]. simpl.
  intros id e. destruct (decide (Product.productId q = id)) as [<-|Hne].
  - rewrite lookup_insert_eq. intros [= <-]. done.
  - rewrite lookup_insert_ne by done. apply Hinv.
Qed.

Lemma processProductUpdates_notAhead F ps st :
  Forall (Bot.notAhead F) ps →
  Bot.cacheNotAhead F (productCache st.1) →
  Bot.cacheNotAhead F (productCache (processProductUpdates ps st).1).
Proof.
  revert st. induction ps as [|q ps IH]; intros st Hall Hinv; [done|].
  apply Forall_cons in Hall as [Hq Hall].
  apply (IH (processProduct st q) Hall). by apply processProduct_notAhead.
Qed.

Lemma pollForUpdates_notAhead F now r st :
  Forall (Bot.notAhead F) (match r with ApiSuccess ps => ps | _ => [] end) →
  Bot.cacheNotAhead F (productCache st.1) →
  Bot.cacheNotAhead F (productCache (pollForUpdates now r st).1).
Proof.
  intros Hall Hinv. unfold pollForUpdates.
  destruct (now - lastPollTime st.1 <? 5000)%Z; [done|].
  destruct r as [| |ps]; try done.
  by apply processProductUpdates_notAhead.
Qed.

Lemma initializeProductCache_notAhead F ps (pm : ProductManager.t) :
  Forall (Bot.notAhead F) ps →
  Bot.cacheNotAhead F (productCache pm) →
  Bot.cacheNotAhead F (productCache (initializeProductCache (ApiSuccess ps) pm)).
Proof.
  revert pm. induction ps as [|q ps IH]; intros pm Hall Hinv; [done|].
  apply Forall_cons in Hall as [Hq Hall]. simpl. apply (IH _ Hall). simpl.
  intros id e. destruct (decide (Product.productId q = id)) as [<-|Hne].
  - rewrite lookup_insert_eq. intros [= <-]. done.
  - rewrite lookup_insert_ne by done. apply Hinv.
Qed.

Lemma step_notAhead F (b : Bot.t) (e : Bot.Event) :
  Forall (Bot.notAhead F) (Bot.polled e) →
  Bot.cacheNotAhead F (Bot.cache b) →
  Bot.cacheNotAhead F (Bot.cache (Bot.step b e)).
Proof.
  intros Hall Hinv.
  destruct e as [ |now g|now m| | | |now|now r|now r| ]; simpl; try exact Hinv.
  - by destruct (WebSocketManager.reconnectTimers (Bot.webSocketManager b)).
  - by destruct (WebSocketManager.heartbeatInterval (Bot.webSocketManager b)).
  - destruct (WebSocketManager.fallbackPollingInterval (Bot.webSocketManager b));
      [|done].
    apply (pollForUpdates_notAhead F now r
             (Bot.productManager b, Bot.channelManager b)); [|done].
    by destruct r.
  - apply (pollForUpdates_notAhead F now r
             (Bot.productManager b, Bot.channelManager b)); [|done].
    by destruct r.
Qed.

Lemma run_notAhead F (es : list Bot.Event) (b : Bot.t) :
  Bot.historyNotAhead F es →
  Bot.cacheNotAhead F (Bot.cache b) →
  Bot.cacheNotAhead F (Bot.cache (Bot.run b es)).
Proof.
  revert b. induction es as [|e es IH]; intros b Hall Hinv; [done|].
  apply Forall_cons in Hall as [He Hall].
  apply (IH (Bot.step b e) Hall). by apply step_notAhead.
Qed.

Lemma NoDup_productId_inj F p q :
  NoDup (Product.productId <$> F) → p ∈ F → q ∈ F →
  Product.productId p = Product.productId q → p = q.
Proof.
  induction F as [|x F IH]; intros Hnd Hp Hq Heq.
  - by apply elem_of_nil in Hp.
  - rewrite fmap_cons in Hnd. apply NoDup_cons in Hnd as [Hx Hnd].
    apply elem_of_cons in Hp as [->|Hp]; apply elem_of_cons in Hq as [->|Hq].
    + done.
    + exfalso. apply Hx. rewrite Heq. by apply list_elem_of_fmap_2.
    + exfalso. apply Hx. rewrite <- Heq. by apply list_elem_of_fmap_2.
    + by apply IH.
Qed.

Lemma catalog_notAhead F p :
  NoDup (Product.productId <$> F) → p ∈ F → Bot.notAhead F p.
Proof.
  intros Hnd Hp q Hq Heq. right. by apply (NoDup_productId_inj F).
Qed.

(** The loop body, given a snapshot of the catalog and a cache that is
    not ahead of the catalog, leaves that snapshot cached. *)
Lemma processProduct_catalog F st p :
  p ∈ F →
  Bot.cacheNotAhead F (productCache st.1) →
  productCache (processProduct st p).1 !! Product.productId p
  = Some (Bot.entryOf p).
Proof.
  intros Hp Hinv.
  destruct (isNewOrUpdated (productCache st.1 !! Product.productId p)
              (Product.lastUpdated p)) eqn:Hnew.
  - rewrite processProduct_applied by done. simpl. apply lookup_insert_eq.
  - rewrite processProduct_skipped by done.
    apply isNewOrUpdated_false in Hnew as (e & He & Hle).
    destruct (Hinv _ _ He) as (Hentry & Hid & Hahead).
    destruct (Hahead p Hp (eq_sym Hid)) as [Hlt | Hsame].
    + rewrite Hentry in Hle. simpl in Hle. lia.
    + rewrite He, Hentry, Hsame. done.
Qed.

Lemma processProductUpdates_catalog F ps st p :
  NoDup (Product.productId <$> F) →
  NoDup (Product.productId <$> ps) →
  ps ⊆ F →
  Bot.cacheNotAhead F (productCache st.1) →
  p ∈ ps →
  productCache (processProductUpdates ps st).1 !! Product.productId p
  = Some (Bot.entryOf p).
Proof.
  intros HndF. revert st.
  induction ps as [|q ps IH]; intros st Hnd Hsub Hinv Hp.
  - by apply elem_of_nil in Hp.
  - rewrite fmap_cons in Hnd. apply NoDup_cons in Hnd as [Hq Hnd].
    assert (HqF : q ∈ F) by (apply Hsub; left).
    change (processProductUpdates (q :: ps) st)
      with (processProductUpdates ps (processProduct st q)).
    apply elem_of_cons in Hp as [->|Hp].
    + rewrite processProductUpdates_other by done.
      by apply (processProduct_catalog F).
    + apply IH; [done| | |done].
      * intros x Hx. apply Hsub. by right.
      * apply processProduct_notAhead; [by apply catalog_notAhead | done].
Qed.

End Convergence.

Lemma completedPoll_cache (F : list Product.IProduct) (b : Bot.t)
    (e : Bot.Event) :
  Bot.completedPoll F b e →
  ∃ now, Bot.cache (Bot.step b e)
         = ProductManager.productCache
             (ProductManager.processProductUpdates F
                (ProductManager.set_lastPollTime now (Bot.productManager b),
                 Bot.channelManager b)).1.
Proof.
  intros (now & Hrate & He). exists now.
  assert (Hpoll : Bot.cache (Bot.withPoll now (ProductManager.ApiSuccess F) b)
                  = ProductManager.productCache
                      (ProductManager.processProductUpdates F
                         (ProductManager.set_lastPollTime now (Bot.productManager b),
                          Bot.channelManager b)).1).
  { unfold Bot.cache, Bot.withPoll, ProductManager.pollForUpdates. simpl.
    apply Z.ltb_ge in Hrate. by rewrite Hrate. }
  destruct He as [-> | [Hfb ->]]; simpl; [done|]. by rewrite Hfb.
Qed.

(** C4, as claimed, at a concrete input: [P1] was polled once, the final
    catalog is empty, and after a completed poll of it the cache is not
    empty. *)
Lemma poll_keeps_absent_entity :
  let before :=
    Bot.run Bot.init
      [Bot.RefreshButton 5000 (ProductManager.ApiSuccess [Sample.widget 7 5])] in
  let final :=
    Bot.step before (Bot.RefreshButton 10000 (ProductManager.ApiSuccess [])) in
  Bot.cache final ≠ ∅.
Proof.
  intros before final H. apply (f_equal (fun c => c !! "P1")) in H.
  vm_compute in H. discriminate H.
Qed.

(** C4, amended. Take a final catalog with distinct product ids, and a
    history in which every snapshot cached at the start or polled on the
    way is not ahead of the catalog (it is older than the catalog's
    snapshot of the product, or it is that snapshot). After a completed
    poll of the catalog the cache holds, for every product of the catalog,
    exactly the catalog's snapshot. The entries of products that the
    catalog does not contain are the ones cached before the poll: nothing
    removes them. *)
Theorem poll_convergence (b : Bot.t) (es : list Bot.Event) (e : Bot.Event)
    (F : list Product.IProduct) :
  NoDup (Product.productId <$> F) →
  Bot.cacheNotAhead F (Bot.cache b) →
  Bot.historyNotAhead F es →
  Bot.completedPoll F (Bot.run b es) e →
  (∀ p, p ∈ F →
        Bot.cache (Bot.run b (es ++ [e])) !! Product.productId p
        = Some (Bot.entryOf p))
  ∧ (∀ id, id ∉ Product.productId <$> F →
           Bot.cache (Bot.run b (es ++ [e])) !! id
           = Bot.cache (Bot.run b es) !! id).
Proof.
  intros Hnd Hinv Hhist Hpoll.
  assert (Hrun : Bot.run b (es ++ [e]) = Bot.step (Bot.run b es) e)
    by (unfold Bot.run; by rewrite foldl_app).
  rewrite Hrun.
  destruct (completedPoll_cache F (Bot.run b es) e Hpoll) as (now & ->).
  split.
  - intros p Hp. apply (processProductUpdates_catalog F); try done.
    by apply run_notAhead.
  - intros id Hid. by rewrite processProductUpdates_other.
Qed.

(** The theorem for the catalog that has [P1] at version 7, after an
    earlier poll that saw [P1] at version 3 and a pushed deletion. *)
Lemma poll_convergence_witness :
  Bot.cache
    (Bot.run Bot.init
       ([Bot.RefreshButton 5000 (ProductManager.ApiSuccess [Sample.widget 3 5]);
         Bot.SocketMessage 6000
           (Bot.productUpdate "delete" (DocumentKey "P1") 6000)]
        ++ [Bot.RefreshButton 10000
              (ProductManager.ApiSuccess [Sample.widget 7 2])])) !! "P1"
  = Some (Bot.entryOf (Sample.widget 7 2)).
Proof.
  refine (proj1 (poll_convergence Bot.init _ _ [Sample.widget 7 2] _ _ _ _)
            (Sample.widget 7 2) _).
  - apply NoDup_singleton.
  - intros id e He. unfold Bot.cache in He. simpl in He.
    by rewrite lookup_empty in He.
  - constructor; [|constructor; [|constructor]]; simpl.
    + constructor; [|constructor].
      intros p Hp _. apply list_elem_of_singleton in Hp as ->. left. simpl. lia.
    + constructor.
  - exists 10000%Z. split; [vm_compute; discriminate | by left].
  - by apply list_elem_of_singleton.
Defined.

(** ** The connection manager *)

Section Connection.

Import WebSocket WebSocketManager.

Implicit Types (s : WebSocketManager.t) (m : Outgoing).

(** Case analysis on a state: its fields by name, the two interval
    flags by value, and the handlers computed as far as they go. *)
Ltac handler_cases s :=
  destruct s as [w n c h l f ts tx]; destruct h, f;
  cbn -[Nat.ltb Nat.eqb maxReconnectAttempts Z.mul Z.of_nat] in *.

Lemma send_transmits s m :
  isConnected s = true → ws s = Some OPEN →
  send m s = set_transmitted (transmitted s ++ [m]) s.
Proof. intros Hc Hw. unfold send. rewrite Hc, Hw. done. Qed.

Lemma send_discards s m :
  ¬ (isConnected s = true ∧ ws s = Some OPEN) → send m s = s.
Proof.
  intros Hn. unfold send.
  destruct (isConnected s); [|done]. simpl.
  case_bool_decide; [|done]. by destruct Hn.
Qed.

Lemma send_fields s m :
  ws (send m s) = ws s
  ∧ reconnectAttempts (send m s) = reconnectAttempts s
  ∧ isConnected (send m s) = isConnected s
  ∧ fallbackPollingInterval (send m s) = fallbackPollingInterval s
  ∧ reconnectTimers (send m s) = reconnectTimers s.
Proof. unfold send. by case_match. Qed.

Lemma handleDisconnection_isConnected s :
  isConnected (handleDisconnection s) = false.
Proof.
  unfold handleDisconnection. handler_cases s; by repeat case_match.
Qed.

(** A disconnection handled while attempts are left. *)
Lemma handleDisconnection_retry s :
  (reconnectAttempts s < maxReconnectAttempts)%nat →
  reconnectAttempts (handleDisconnection s) = S (reconnectAttempts s)
  ∧ reconnectTimers (handleDisconnection s)
    = reconnectTimers s ++ [(reconnectDelay * Z.of_nat (S (reconnectAttempts s)))%Z]
  ∧ fallbackPollingInterval (handleDisconnection s)
    = (if decide (reconnectAttempts s = 0) then true
       else fallbackPollingInterval s).
Proof.
  intros Hlt. apply Nat.ltb_lt in Hlt. unfold handleDisconnection.
  handler_cases s; rewrite Hlt; by destruct n.
Qed.

(** A disconnection handled when the attempts are used up. *)
Lemma handleDisconnection_exhausted s :
  (maxReconnectAttempts ≤ reconnectAttempts s)%nat →
  reconnectAttempts (handleDisconnection s) = reconnectAttempts s
  ∧ reconnectTimers (handleDisconnection s) = reconnectTimers s
  ∧ fallbackPollingInterval (handleDisconnection s) = true.
Proof.
  intros Hge. apply Nat.ltb_ge in Hge. unfold handleDisconnection.
  handler_cases s; by rewrite Hge.
Qed.

Lemma onOpen_fields now g s :
  isConnected (onOpen now g s) = true
  ∧ reconnectAttempts (onOpen now g s) = 0
  ∧ fallbackPollingInterval (onOpen now g s) = false
  ∧ heartbeatInterval (onOpen now g s) = true
  ∧ reconnectTimers (onOpen now g s) = reconnectTimers s
  ∧ ws (onOpen now g s) = ws s.
Proof.
  unfold onOpen, send. handler_cases s; by case_match.
Qed.

Lemma onOpen_subscribes now g s :
  ws s = Some OPEN →
  transmitted (onOpen now g s) = transmitted s ++ [SUBSCRIBE_PRODUCTS g].
Proof.
  intros Hw. destruct s as [w n c h l f ts tx]. simpl in Hw. subst w.
  unfold onOpen. destruct f; reflexivity.
Qed.

End Connection.

(** ** Sending *)

(** C10. [send] hands the message to the socket exactly when the
    connected flag is set and the socket is open. In every other state it
    returns the state it was given: the message is stored nowhere, so
    nothing can deliver it later, and nothing is raised. *)
Theorem send_iff_connected_open (s : WebSocketManager.t)
    (m : WebSocketManager.Outgoing) :
  (WebSocketManager.transmitted (WebSocketManager.send m s)
   = WebSocketManager.transmitted s ++ [m]
   ↔ WebSocketManager.isConnected s = true
     ∧ WebSocketManager.ws s = Some WebSocket.OPEN)
  ∧ (WebSocketManager.isConnected s = true
     ∧ WebSocketManager.ws s = Some WebSocket.OPEN
     ↔ WebSocketManager.send m s
       = WebSocketManager.set_transmitted
           (WebSocketManager.transmitted s ++ [m]) s)
  ∧ (¬ (WebSocketManager.isConnected s = true
        ∧ WebSocketManager.ws s = Some WebSocket.OPEN)
     ↔ WebSocketManager.send m s = s).
Proof.
  assert (Hgrow : ∀ l : list WebSocketManager.Outgoing, l ≠ l ++ [m]).
  { intros l Heq. apply (f_equal length) in Heq.
    rewrite length_app in Heq. simpl in Heq. lia. }
  destruct (decide (WebSocketManager.isConnected s = true
                    ∧ WebSocketManager.ws s = Some WebSocket.OPEN))
    as [[Hc Hw] | Hn].
  - rewrite (send_transmits s m Hc Hw). simpl.
    split; [|split]; split; try done.
    + intros Hnot. by destruct Hnot.
    + intros Heq. apply (f_equal WebSocketManager.transmitted) in Heq.
      simpl in Heq. by destruct (Hgrow (WebSocketManager.transmitted s)).
  - rewrite (send_discards s m Hn).
    split; [|split]; split; try done.
    + intros Heq. by destruct (Hgrow (WebSocketManager.transmitted s)).
    + intros Heq. apply (f_equal WebSocketManager.transmitted) in Heq.
      simpl in Heq. by destruct (Hgrow (WebSocketManager.transmitted s)).
Qed.

(** A subscription and a ping sent by the manager as constructed (not
    connected, no socket) leave it as it was. *)
Lemma send_iff_connected_open_witness :
  WebSocketManager.send (WebSocketManager.SUBSCRIBE_PRODUCTS None)
    WebSocketManager.init = WebSocketManager.init
  ∧ WebSocketManager.send WebSocketManager.PING WebSocketManager.init
    = WebSocketManager.init.
Proof.
  split.
  - apply (send_iff_connected_open WebSocketManager.init
             (WebSocketManager.SUBSCRIBE_PRODUCTS None)).
    intros [Hc _]. discriminate Hc.
  - apply (send_iff_connected_open WebSocketManager.init WebSocketManager.PING).
    intros [Hc _]. discriminate Hc.
Defined.

(** ** Reconnection *)

Section Backoff.

Import WebSocket WebSocketManager.

Implicit Types (s : WebSocketManager.t).

Lemma failures_schedule (k : nat) s :
  reconnectAttempts s = 0 → (k ≤ maxReconnectAttempts)%nat →
  reconnectAttempts (Nat.iter k handleDisconnection s) = k
  ∧ reconnectTimers (Nat.iter k handleDisconnection s)
    = reconnectTimers s
      ++ ((fun i => (Z.of_nat i * reconnectDelay)%Z) <$> seq 1 k).
Proof.
  intros H0. induction k as [|k IH]; intros Hk.
  - simpl. by rewrite app_nil_r.
  - destruct IH as [Hn Ht]; [lia|].
    change (Nat.iter (S k) handleDisconnection s)
      with (handleDisconnection (Nat.iter k handleDisconnection s)).
    destruct (handleDisconnection_retry (Nat.iter k handleDisconnection s))
      as (Hn' & Ht' & _); [lia|].
    rewrite Hn', Ht', Hn, Ht. split; [done|].
    rewrite seq_S, fmap_app, <- app_assoc.
    by rewrite (Z.mul_comm reconnectDelay).
Qed.

End Backoff.

(** C7 at its failing input. The [ws] library reports a connection
    attempt that fails with an ['error'] event followed by a ['close']
    event, and [connect] registers [handleDisconnection] for both. So the
    first failed attempt of the bot leaves the counter at 2 and two
    reconnects pending, after [1 * reconnectDelay] and after
    [2 * reconnectDelay], where the claim has one reconnect after
    [1 * reconnectDelay]; after the second failed attempt the counter is 4
    and the delay scheduled last is [4 * reconnectDelay], not
    [2 * reconnectDelay]. In general a failed attempt that meets the
    counter at [n] raises it to [n + 2] and schedules two reconnects,
    after [(n + 1) * reconnectDelay] and [(n + 2) * reconnectDelay]. *)
Theorem refused_connect_counts_twice :
  let failedOnce :=
    Bot.run Bot.init [Bot.Connect; Bot.SocketError; Bot.SocketClose] in
  let failedTwice :=
    Bot.run failedOnce [Bot.ReconnectTimer; Bot.SocketError; Bot.SocketClose] in
  WebSocketManager.reconnectAttempts (Bot.webSocketManager failedOnce) = 2
  ∧ WebSocketManager.reconnectTimers (Bot.webSocketManager failedOnce)
    = [1 * WebSocketManager.reconnectDelay; 2 * WebSocketManager.reconnectDelay]%Z
  ∧ WebSocketManager.reconnectAttempts (Bot.webSocketManager failedTwice) = 4
  ∧ last (WebSocketManager.reconnectTimers (Bot.webSocketManager failedTwice))
    = Some (4 * WebSocketManager.reconnectDelay)%Z
  ∧ last (WebSocketManager.reconnectTimers (Bot.webSocketManager failedTwice))
    ≠ Some (2 * WebSocketManager.reconnectDelay)%Z
  ∧ ∀ b : Bot.t,
      let n := WebSocketManager.reconnectAttempts (Bot.webSocketManager b) in
      (n + 2 ≤ WebSocketManager.maxReconnectAttempts)%nat →
      let b' := Bot.run b [Bot.SocketError; Bot.SocketClose] in
      WebSocketManager.reconnectAttempts (Bot.webSocketManager b') = n + 2
      ∧ WebSocketManager.reconnectTimers (Bot.webSocketManager b')
        = WebSocketManager.reconnectTimers (Bot.webSocketManager b)
          ++ [(WebSocketManager.reconnectDelay * Z.of_nat (n + 1))%Z;
              (WebSocketManager.reconnectDelay * Z.of_nat (n + 2))%Z].
Proof.
  split; [vm_compute; reflexivity|].
  split; [vm_compute; reflexivity|].
  split; [vm_compute; reflexivity|].
  split; [vm_compute; reflexivity|].
  split; [vm_compute; discriminate|].
  intros b n Hn b'. subst b'. simpl.
  set (s := Bot.webSocketManager b) in *.
  destruct (handleDisconnection_retry s) as (Hn1 & Ht1 & _); [lia|].
  set (s1 := WebSocketManager.handleDisconnection s) in *.
  assert (Hclosed :
    WebSocketManager.reconnectAttempts (Bot.socketBecomes WebSocket.CLOSED s1)
    = WebSocketManager.reconnectAttempts s1
    ∧ WebSocketManager.reconnectTimers (Bot.socketBecomes WebSocket.CLOSED s1)
      = WebSocketManager.reconnectTimers s1).
  { unfold Bot.socketBecomes. by destruct (WebSocketManager.ws s1). }
  destruct Hclosed as [Hn2 Ht2].
  destruct (handleDisconnection_retry (Bot.socketBecomes WebSocket.CLOSED s1))
    as (Hn3 & Ht3 & _); [rewrite Hn2, Hn1; lia|].
  rewrite Hn3, Ht3, Hn2, Ht2, Hn1, Ht1. subst n. split; [lia|].
  rewrite <- app_assoc. simpl.
  by replace (S (S (WebSocketManager.reconnectAttempts s)))
    with (WebSocketManager.reconnectAttempts s + 2)%nat by lia;
     replace (S (WebSocketManager.reconnectAttempts s))
    with (WebSocketManager.reconnectAttempts s + 1)%nat by lia.
Qed.

(** ** Fallback polling and the connection *)

Section Fallback.

Import WebSocket WebSocketManager.

Implicit Types (s : WebSocketManager.t) (b : Bot.t) (e : Bot.Event).

Lemma socketBecomes_fields (r : ReadyState) s :
  isConnected (Bot.socketBecomes r s) = isConnected s
  ∧ reconnectAttempts (Bot.socketBecomes r s) = reconnectAttempts s
  ∧ fallbackPollingInterval (Bot.socketBecomes r s) = fallbackPollingInterval s
  ∧ reconnectTimers (Bot.socketBecomes r s) = reconnectTimers s
  ∧ transmitted (Bot.socketBecomes r s) = transmitted s.
Proof. unfold Bot.socketBecomes. by destruct (ws s). Qed.

Lemma handleMessage_fields now (m : WebSocketMessage)
    (st : WebSocketManager.t * ChannelManager.t) :
  isConnected (handleMessage now m st).1 = isConnected st.1
  ∧ reconnectAttempts (handleMessage now m st).1 = reconnectAttempts st.1
  ∧ fallbackPollingInterval (handleMessage now m st).1
    = fallbackPollingInterval st.1.
Proof. unfold handleMessage. by repeat case_match. Qed.

Lemma heartbeatTick_fields now s :
  isConnected (heartbeatTick now s) = isConnected s
  ∧ reconnectAttempts (heartbeatTick now s) = reconnectAttempts s
  ∧ fallbackPollingInterval (heartbeatTick now s) = fallbackPollingInterval s.
Proof.
  unfold heartbeatTick.
  destruct (send_fields s PING) as (_ & Hn & Hc & Hf & _).
  by repeat case_match.
Qed.

Lemma disconnect_fields s :
  isConnected (disconnect s) = false
  ∧ reconnectAttempts (disconnect s) = reconnectAttempts s
  ∧ fallbackPollingInterval (disconnect s) = false.
Proof.
  destruct s as [w n c h l f ts tx]. unfold disconnect.
  destruct h, f, w; done.
Qed.

Lemma handleDisconnection_cases s :
  ((reconnectAttempts s < maxReconnectAttempts)%nat
   ∧ reconnectAttempts (handleDisconnection s) = S (reconnectAttempts s)
   ∧ fallbackPollingInterval (handleDisconnection s)
     = (if decide (reconnectAttempts s = 0) then true
        else fallbackPollingInterval s))
  ∨ ((maxReconnectAttempts ≤ reconnectAttempts s)%nat
     ∧ reconnectAttempts (handleDisconnection s) = reconnectAttempts s
     ∧ fallbackPollingInterval (handleDisconnection s) = true).
Proof.
  destruct (Nat.lt_ge_cases (reconnectAttempts s) maxReconnectAttempts)
    as [Hlt | Hge].
  - left. destruct (handleDisconnection_retry s Hlt) as (? & _ & ?). done.
  - right. destruct (handleDisconnection_exhausted s Hge) as (? & _ & ?). done.
Qed.

(** What each event does to the connected flag, the attempt counter and
    the fallback polling interval. *)
Lemma step_connection b e :
  let s := Bot.webSocketManager b in
  let s' := Bot.webSocketManager (Bot.step b e) in
  match e with
  | Bot.SocketOpen _ _ =>
      isConnected s' = true ∧ reconnectAttempts s' = 0
      ∧ fallbackPollingInterval s' = false
  | Bot.SocketClose | Bot.SocketError =>
      isConnected s' = false
      ∧ (((reconnectAttempts s < maxReconnectAttempts)%nat
          ∧ reconnectAttempts s' = S (reconnectAttempts s)
          ∧ fallbackPollingInterval s'
            = (if decide (reconnectAttempts s = 0) then true
               else fallbackPollingInterval s))
         ∨ ((maxReconnectAttempts ≤ reconnectAttempts s)%nat
            ∧ reconnectAttempts s' = reconnectAttempts s
            ∧ fallbackPollingInterval s' = true))
  | Bot.Disconnect =>
      isConnected s' = false ∧ reconnectAttempts s' = reconnectAttempts s
      ∧ fallbackPollingInterval s' = false
  | _ =>
      isConnected s' = isConnected s
      ∧ reconnectAttempts s' = reconnectAttempts s
      ∧ fallbackPollingInterval s' = fallbackPollingInterval s
  end.
Proof.
  destruct b as [s pm ch].
  destruct e as [ |now g|now m| | | |now|now r|now r| ]; simpl.
  - done.
  - destruct (onOpen_fields now g (Bot.socketBecomes OPEN s))
      as (? & ? & ? & _). done.
  - apply (handleMessage_fields now m (s, ch)).
  - destruct (socketBecomes_fields CLOSED s) as (_ & Hn & Hf & _).
    split; [apply handleDisconnection_isConnected|].
    rewrite <- Hn, <- Hf. apply handleDisconnection_cases.
  - split; [apply handleDisconnection_isConnected|].
    apply handleDisconnection_cases.
  - by destruct (reconnectTimers s).
  - destruct (heartbeatInterval s); [|done]. apply heartbeatTick_fields.
  - destruct (fallbackPollingInterval s) eqn:Hfb; simpl; by rewrite ?Hfb.
  - done.
  - apply disconnect_fields.
Qed.

Lemma maxReconnectAttempts_pos : (1 ≤ maxReconnectAttempts)%nat.
Proof. unfold maxReconnectAttempts. lia. Qed.

Lemma step_connected_invariant b e :
  let s := Bot.webSocketManager b in
  let s' := Bot.webSocketManager (Bot.step b e) in
  (isConnected s = true → reconnectAttempts s = 0)
  ∧ (fallbackPollingInterval s = true → (1 ≤ reconnectAttempts s)%nat) →
  (isConnected s' = true → reconnectAttempts s' = 0)
  ∧ (fallbackPollingInterval s' = true → (1 ≤ reconnectAttempts s')%nat).
Proof.
  intros s s' [Hc Hf]. subst s s'.
  pose proof (step_connection b e) as Hstep. cbv zeta in Hstep.
  pose proof maxReconnectAttempts_pos as Hmax.
  destruct e; cbv beta iota in Hstep;
    try (destruct Hstep as (Hc' & Hn' & Hf'); rewrite ?Hc', ?Hn', ?Hf';
         split; [done || (intros; lia) | done || (intros; lia)]).
  - destruct Hstep as (Hc' & [(Hlt & Hn' & Hf') | (Hge & Hn' & Hf')]);
      rewrite Hc', Hn'; split; try done; intros; lia.
  - destruct Hstep as (Hc' & [(Hlt & Hn' & Hf') | (Hge & Hn' & Hf')]);
      rewrite Hc', Hn'; split; try done; intros; lia.
Qed.

Lemma step_fallback_invariant b e :
  let s := Bot.webSocketManager b in
  let s' := Bot.webSocketManager (Bot.step b e) in
  e ≠ Bot.Disconnect →
  ((1 ≤ reconnectAttempts s)%nat → fallbackPollingInterval s = true) →
  ((1 ≤ reconnectAttempts s')%nat → fallbackPollingInterval s' = true).
Proof.
  intros s s' Hne Hf. subst s s'.
  pose proof (step_connection b e) as Hstep. cbv zeta in Hstep.
  destruct e; cbv beta iota in Hstep; try done;
    try (destruct Hstep as (Hc' & Hn' & Hf'); rewrite ?Hn', ?Hf';
         done || (intros; lia)).
  - destruct Hstep as (Hc' & [(Hlt & Hn' & Hf') | (Hge & Hn' & Hf')]);
      rewrite Hn', Hf'; [|done].
    intros _. case_decide; [done|]. apply Hf. lia.
  - destruct Hstep as (Hc' & [(Hlt & Hn' & Hf') | (Hge & Hn' & Hf')]);
      rewrite Hn', Hf'; [|done].
    intros _. case_decide; [done|]. apply Hf. lia.
Qed.

Lemma run_connected_invariant es b :
  let s := Bot.webSocketManager b in
  let s' := Bot.webSocketManager (Bot.run b es) in
  (isConnected s = true → reconnectAttempts s = 0)
  ∧ (fallbackPollingInterval s = true → (1 ≤ reconnectAttempts s)%nat) →
  (isConnected s' = true → reconnectAttempts s' = 0)
  ∧ (fallbackPollingInterval s' = true → (1 ≤ reconnectAttempts s')%nat).
Proof.
  revert b. induction es as [|e es IH]; intros b; [done|].
  intros s s' Hinv. apply (IH (Bot.step b e)).
  by apply step_connected_invariant.
Qed.

Lemma run_fallback_invariant es b :
  let s := Bot.webSocketManager b in
  let s' := Bot.webSocketManager (Bot.run b es) in
  Bot.Disconnect ∉ es →
  ((1 ≤ reconnectAttempts s)%nat → fallbackPollingInterval s = true) →
  ((1 ≤ reconnectAttempts s')%nat → fallbackPollingInterval s' = true).
Proof.
  revert b. induction es as [|e es IH]; intros b; [done|].
  intros s s' Hnin Hinv. apply not_elem_of_cons in Hnin as [Hne Hnin].
  apply (IH (Bot.step b e) Hnin).
  by apply step_fallback_invariant.
Qed.

End Fallback.

(** C5, as claimed, at a concrete input: the bot connects, the socket
    opens and then closes once. Fallback polling is active, although one
    failure is fewer than the maximum attempt count. *)
Lemma fallback_after_first_failure :
  let s := Bot.webSocketManager
             (Bot.run Bot.init
                [Bot.Connect; Bot.SocketOpen 0 None; Bot.SocketClose]) in
  ¬ (WebSocketManager.fallbackPollingInterval s = true →
     (WebSocketManager.maxReconnectAttempts
      ≤ WebSocketManager.reconnectAttempts s)%nat).
Proof.
  intros s H. specialize (H eq_refl). vm_compute in H. lia.
Qed.

(** C5, amended. On every run of the bot from its construction, fallback
    polling is dormant while the connected flag is set, and, as long as
    [disconnect] is not called, it is active exactly when at least one
    disconnection was handled since the socket last opened (the attempt
    counter is at least 1). A handled disconnection leaves it active
    exactly when it was the first one (the counter was 0), or the
    attempts were used up, or it was active already. The ['open'] handler
    stops it and sets the connected flag. *)
Theorem fallback_polling_activity :
  (∀ es : list Bot.Event,
      let s := Bot.webSocketManager (Bot.run Bot.init es) in
      (WebSocketManager.isConnected s = true →
       WebSocketManager.fallbackPollingInterval s = false)
      ∧ (Bot.Disconnect ∉ es →
         (WebSocketManager.fallbackPollingInterval s = true
          ↔ (1 ≤ WebSocketManager.reconnectAttempts s)%nat)))
  ∧ (∀ s : WebSocketManager.t,
        WebSocketManager.fallbackPollingInterval
          (WebSocketManager.handleDisconnection s) = true
        ↔ WebSocketManager.reconnectAttempts s = 0
          ∨ (WebSocketManager.maxReconnectAttempts
             ≤ WebSocketManager.reconnectAttempts s)%nat
          ∨ WebSocketManager.fallbackPollingInterval s = true)
  ∧ (∀ (b : Bot.t) (now : Z) (guildId : option string),
        let s' := Bot.webSocketManager (Bot.step b (Bot.SocketOpen now guildId)) in
        WebSocketManager.isConnected s' = true
        ∧ WebSocketManager.fallbackPollingInterval s' = false).
Proof.
  split; [|split].
  - intros es s.
    destruct (run_connected_invariant es Bot.init) as [Hc Hf]; [by split|].
    fold s in Hc, Hf. split.
    + intros Hconn. specialize (Hc Hconn).
      destruct (WebSocketManager.fallbackPollingInterval s); [|done].
      specialize (Hf eq_refl). lia.
    + intros Hnin. split; [exact Hf|].
      apply (run_fallback_invariant es Bot.init Hnin). simpl. lia.
  - intros s.
    destruct (handleDisconnection_cases s)
      as [(Hlt & _ & ->) | (Hge & _ & ->)].
    + case_decide; [by intuition|].
      split; [by intuition|]. intros [H0 | [Hge | Hf]]; [done | lia | done].
    + by intuition.
  - intros b now g s'. subst s'.
    pose proof (step_connection b (Bot.SocketOpen now g)) as Hstep.
    cbv zeta beta iota in Hstep. by destruct Hstep as (? & _ & ?).
Qed.

(** After a failure and a successful reconnection the bot is connected
    and polls no more. *)
Lemma fallback_polling_activity_witness :
  WebSocketManager.fallbackPollingInterval
    (Bot.webSocketManager
       (Bot.run Bot.init
          [Bot.Connect; Bot.SocketOpen 0 None; Bot.SocketClose;
           Bot.ReconnectTimer; Bot.SocketOpen 6000 None])) = false.
Proof.
  apply (proj1 fallback_polling_activity
           [Bot.Connect; Bot.SocketOpen 0 None; Bot.SocketClose;
            Bot.ReconnectTimer; Bot.SocketOpen 6000 None]).
  vm_compute. reflexivity.
Defined.

(** C6, as claimed, at a concrete input: after six failed connections in
    a row no reconnect is pending, so no further attempt will be made. *)
Lemma exhausted_schedules_no_reconnect :
  ¬ ∃ delay : Z,
      delay ∈ WebSocketManager.reconnectTimers
                (Bot.webSocketManager Sample.exhausted).
Proof. intros [delay Hin]. vm_compute in Hin. by apply elem_of_nil in Hin. Qed.

(** C6, amended. Once the attempt counter has reached the maximum, a
    handled disconnection schedules nothing: the pending timers and the
    counter stay as they are, the connected flag is off and fallback
    polling is on. Whenever the socket that the manager holds does open,
    the handler sets the connected flag, resets the counter, stops
    fallback polling and sends [SUBSCRIBE_PRODUCTS]. *)
Theorem exhausted_stays_in_fallback :
  (∀ s : WebSocketManager.t,
      (WebSocketManager.maxReconnectAttempts
       ≤ WebSocketManager.reconnectAttempts s)%nat →
      let s' := WebSocketManager.handleDisconnection s in
      WebSocketManager.reconnectTimers s' = WebSocketManager.reconnectTimers s
      ∧ WebSocketManager.reconnectAttempts s' = WebSocketManager.reconnectAttempts s
      ∧ WebSocketManager.fallbackPollingInterval s' = true
      ∧ WebSocketManager.isConnected s' = false)
  ∧ (∀ (b : Bot.t) (now : Z) (guildId : option string),
        WebSocketManager.ws (Bot.webSocketManager b) ≠ None →
        let s' := Bot.webSocketManager (Bot.step b (Bot.SocketOpen now guildId)) in
        WebSocketManager.isConnected s' = true
        ∧ WebSocketManager.reconnectAttempts s' = 0
        ∧ WebSocketManager.fallbackPollingInterval s' = false
        ∧ WebSocketManager.transmitted s'
          = WebSocketManager.transmitted (Bot.webSocketManager b)
            ++ [WebSocketManager.SUBSCRIBE_PRODUCTS guildId]).
Proof.
  split.
  - intros s Hge s'. subst s'.
    destruct (handleDisconnection_exhausted s Hge) as (Hn & Ht & Hf).
    by rewrite Hn, Ht, Hf, handleDisconnection_isConnected.
  - intros b now g Hws s'. subst s'.
    pose proof (step_connection b (Bot.SocketOpen now g)) as Hstep.
    cbv zeta beta iota in Hstep. destruct Hstep as (Hc & Hn & Hf).
    rewrite Hc, Hn, Hf. repeat split.
    destruct b as [s pm ch]. simpl in *.
    rewrite onOpen_subscribes.
    + by destruct (socketBecomes_fields WebSocket.OPEN s) as (_ & _ & _ & _ & ->).
    + unfold Bot.socketBecomes. by destruct (WebSocketManager.ws s).
Qed.

(** The bot with its attempts used up: the next failure schedules
    nothing, and if its socket opens all the same it subscribes again. *)
Lemma exhausted_stays_in_fallback_witness :
  WebSocketManager.reconnectTimers
    (WebSocketManager.handleDisconnection (Bot.webSocketManager Sample.exhausted))
  = WebSocketManager.reconnectTimers (Bot.webSocketManager Sample.exhausted)
  ∧ WebSocketManager.transmitted
      (Bot.webSocketManager (Bot.step Sample.exhausted (Bot.SocketOpen 90000 None)))
    = [WebSocketManager.SUBSCRIBE_PRODUCTS None].
Proof.
  destruct exhausted_stays_in_fallback as [Hex Hopen].
  split.
  - apply (Hex (Bot.webSocketManager Sample.exhausted)). vm_compute. lia.
  - apply (Hopen Sample.exhausted 90000%Z None). vm_compute. discriminate.
Defined.

(** ** The hub *)

Section Hub.

Import WebSocket WebSocketServer.

Variable sendRaises : CustomWebSocket → bool.

Implicit Types (h : WebSocketServer.t) (c : CustomWebSocket).

Lemma forEachSend_clients (guard : CustomWebSocket → bool) (f : Frame)
    (cs : list CustomWebSocket) h :
  clients (stateOf (forEachSend sendRaises guard f cs h)) = clients h.
Proof.
  revert h. induction cs as [|c cs IH]; intros h; [done|]. simpl.
  destruct (guard c); [|apply IH].
  destruct (sendRaises c); [done|]. by rewrite IH.
Qed.

Lemma forEachSend_returns (guard : CustomWebSocket → bool) (f : Frame)
    (cs : list CustomWebSocket) h :
  (∀ c, c ∈ cs → guard c = true → sendRaises c = false) →
  forEachSend sendRaises guard f cs h
  = Returned
      {| clients := clients h;
         delivered :=
           delivered h
           ++ ((fun c => (socketId c, f)) <$> filter (fun c => guard c = true) cs) |}.
Proof.
  revert h. induction cs as [|c cs IH]; intros h Hok.
  - simpl. rewrite app_nil_r. by destruct h.
  - simpl. destruct (guard c) eqn:Hg.
    + rewrite (Hok c) by (done || left).
      rewrite IH by (intros c' Hin; apply Hok; by right). simpl.
      rewrite filter_cons_True by done. rewrite fmap_cons, <- app_assoc. done.
    + rewrite IH by (intros c' Hin; apply Hok; by right).
      rewrite filter_cons_False by (by rewrite Hg). done.
Qed.



End Hub.



(** ** The change feed *)

(** C9 at its failing input. Whatever the store makes of the clause on
    [updatedFields], the pipeline lets every update through, the one that
    touches the description only included, and the hub broadcasts it; the
    filtering policy of the specification suppresses that update. *)
Theorem update_always_matches :
  ∀ updatedFieldsIn : ChangeStreams.Change → list string → bool,
    (∀ change, ChangeStreams.operationType change = "update" →
               ChangeStreams.productMatch updatedFieldsIn change = true)
    ∧ ChangeStreams.productMatch updatedFieldsIn Sample.descriptionEdit = true
    ∧ ChangeStreams.spec_relevant Sample.descriptionEdit = false
    ∧ WebSocketServer.recipients
        (WebSocketServer.PRODUCT_UPDATE "update"
           (FullDocument (Sample.widget 7 5)), 0%Z)
        (WebSocketServer.stateOf
           (ChangeStreams.notify updatedFieldsIn Sample.noneRaises 0
              Sample.descriptionEdit Sample.threeOpen))
      = [1; 2; 3].
Proof.
  intros updatedFieldsIn. split; [|split; [|split]].
  - intros change Hop. unfold ChangeStreams.productMatch. rewrite Hop. done.
  - done.
  - done.
  - done.
Qed.

(** * Further properties of the code *)

#[local] Set Warnings "-clear-no-such-hyp".

(** ** Polling: the rate limit, the cache and the presentation trace *)

Section Polling.

Import ProductManager.

Implicit Types (st : ProductManager.t * ChannelManager.t).
Implicit Types (p q : Product.IProduct) (ps : list Product.IProduct).

Lemma processProduct_lastPollTime st p :
  lastPollTime (processProduct st p).1 = lastPollTime st.1.
Proof. unfold processProduct. by destruct (isNewOrUpdated _ _). Qed.

Lemma processProductUpdates_lastPollTime ps st :
  lastPollTime (processProductUpdates ps st).1 = lastPollTime st.1.
Proof.
  revert st. induction ps as [|p ps IH]; intros st; [done|].
  change (processProductUpdates (p :: ps) st)
    with (processProductUpdates ps (processProduct st p)).
  by rewrite IH, processProduct_lastPollTime.
Qed.

Lemma pollForUpdates_accepted_lastPollTime now r st :
  (5000 ≤ now - lastPollTime st.1)%Z →
  lastPollTime (pollForUpdates now r st).1 = now.
Proof.
  intros Hok. apply Z.ltb_ge in Hok. unfold pollForUpdates. rewrite Hok.
  destruct r; simpl; try done. by rewrite processProductUpdates_lastPollTime.
Qed.

Lemma processProduct_dom st p :
  dom (productCache (processProduct st p).1)
  = dom (productCache st.1) ∪ {[Product.productId p]}.
Proof.
  destruct (isNewOrUpdated (productCache st.1 !! Product.productId p)
              (Product.lastUpdated p)) eqn:Hnew.
  - rewrite processProduct_applied by done. simpl. rewrite dom_insert_L.
    set_solver.
  - rewrite processProduct_skipped by done.
    apply isNewOrUpdated_false in Hnew as (e & He & _).
    assert (Product.productId p ∈ dom (productCache st.1))
      by (apply elem_of_dom; by exists e).
    set_solver.
Qed.

(** Where a cached entry comes from: it was cached before, or it is the
    entry of one of the processed snapshots. *)
Lemma processProduct_origin st p (id : string) (e : CacheEntry) :
  productCache (processProduct st p).1 !! id = Some e →
  productCache st.1 !! id = Some e
  ∨ (Product.productId p = id ∧ e = Bot.entryOf p).
Proof.
  unfold processProduct. destruct (isNewOrUpdated _ _); [|by left]. simpl.
  destruct (decide (Product.productId p = id)) as [<-|Hne].
  - rewrite lookup_insert_eq. intros [= <-]. by right.
  - rewrite lookup_insert_ne by done. by left.
Qed.

Lemma processProductUpdates_origin ps st (id : string) (e : CacheEntry) :
  productCache (processProductUpdates ps st).1 !! id = Some e →
  productCache st.1 !! id = Some e
  ∨ ∃ p, p ∈ ps ∧ Product.productId p = id ∧ e = Bot.entryOf p.
Proof.
  revert st. induction ps as [|q ps IH]; intros st He; [by left|].
  change (processProductUpdates (q :: ps) st)
    with (processProductUpdates ps (processProduct st q)) in He.
  destruct (IH _ He) as [Hq | (p & Hp & Hid & Hep)].
  - destruct (processProduct_origin st q id e Hq) as [Hold | [Hid Heq]].
    + by left.
    + right. exists q. split; [left | done].
  - right. exists p. split; [by right | done].
Qed.

(** A snapshot that passes the staleness test in a later state passes it
    in every earlier one. *)
Lemma isNewOrUpdated_earlier (c c' : option CacheEntry) (v : Z) :
  (∀ e, c = Some e → ∃ e', c' = Some e' ∧ (lastUpdated e ≤ lastUpdated e')%Z) →
  isNewOrUpdated c' v = true → isNewOrUpdated c v = true.
Proof.
  intros Hmono Hnew. destruct c as [e|]; [|done]. simpl.
  destruct (Hmono e eq_refl) as (e' & -> & Hle). simpl in Hnew.
  apply Z.ltb_lt in Hnew. apply Z.ltb_lt. lia.
Qed.

Lemma processProduct_lookup_mono st q (id : string) (e : CacheEntry) :
  productCache st.1 !! id = Some e →
  ∃ e', productCache (processProduct st q).1 !! id = Some e'
        ∧ (lastUpdated e ≤ lastUpdated e')%Z.
Proof.
  intros He.
  destruct (processProduct_version st q id (lastUpdated e)) as (v' & Hv' & Hle);
    [by rewrite He|].
  destruct (productCache (processProduct st q).1 !! id) as [e'|]; [|done].
  exists e'. simpl in Hv'. simplify_eq. done.
Qed.

(** The presentation calls of one pass over a list: the applied
    snapshots, in the order of the list. *)
Lemma processProductUpdates_trace ps st :
  ∃ applied,
    applied `sublist_of` ps
    ∧ (processProductUpdates ps st).2 = st.2 ++ (FullDocument <$> applied)
    ∧ Forall (fun p => isNewOrUpdated
                         (productCache st.1 !! Product.productId p)
                         (Product.lastUpdated p) = true) applied.
Proof.
  revert st. induction ps as [|q ps IH]; intros st.
  - exists []. by rewrite app_nil_r.
  - change (processProductUpdates (q :: ps) st)
      with (processProductUpdates ps (processProduct st q)).
    destruct (IH (processProduct st q)) as (applied & Hsub & Htrace & Hall).
    assert (Hearlier :
      Forall (fun p => isNewOrUpdated
                         (productCache st.1 !! Product.productId p)
                         (Product.lastUpdated p) = true) applied).
    { eapply Forall_impl; [exact Hall|]. intros p Hp.
      eapply isNewOrUpdated_earlier; [|exact Hp].
      intros e He. by apply processProduct_lookup_mono. }
    destruct (isNewOrUpdated (productCache st.1 !! Product.productId q)
                (Product.lastUpdated q)) eqn:Hnew.
    + exists (q :: applied). split; [by apply sublist_skip|]. split.
      * rewrite Htrace, processProduct_applied by done. simpl.
        by rewrite <- app_assoc.
      * by constructor.
    + exists applied. split; [by apply sublist_cons|]. split; [|done].
      by rewrite Htrace, processProduct_skipped.
Qed.

End Polling.

(** X1. A call of [pollForUpdates] that comes less than five seconds
    after a call that passed the rate limit does nothing, whatever the
    read API would have answered and whatever the first call fetched
    (a failed fetch uses up the five seconds as well). *)
Theorem poll_rate_limit (now1 now2 : Z) (r1 r2 : ProductManager.FetchResult)
    (st : ProductManager.t * ChannelManager.t) :
  (5000 ≤ now1 - ProductManager.lastPollTime st.1)%Z →
  (now2 - now1 < 5000)%Z →
  ProductManager.pollForUpdates now2 r2 (ProductManager.pollForUpdates now1 r1 st)
  = ProductManager.pollForUpdates now1 r1 st.
Proof.
  intros Hok Hsoon.
  pose proof (pollForUpdates_accepted_lastPollTime now1 r1 st Hok) as Hlast.
  unfold ProductManager.pollForUpdates at 1. rewrite Hlast.
  apply Z.ltb_lt in Hsoon. by rewrite Hsoon.
Qed.

(** A failed poll at time 5000 swallows the successful answer that a
    poll at time 9999 would have got. *)
Lemma poll_rate_limit_witness :
  ProductManager.pollForUpdates 9999
    (ProductManager.ApiSuccess [Sample.widget 7 5])
    (ProductManager.pollForUpdates 5000 ProductManager.FetchFailed
       (ProductManager.init, []))
  = ProductManager.pollForUpdates 5000 ProductManager.FetchFailed
      (ProductManager.init, []).
Proof.
  apply poll_rate_limit; [vm_compute; discriminate | reflexivity].
Defined.

(** X2. After [processProductUpdates] the cached product ids are the
    ones cached before together with the ids of the processed list: every
    polled product has an entry and no other id appears. *)
Theorem processProductUpdates_dom (ps : list Product.IProduct)
    (st : ProductManager.t * ChannelManager.t) :
  dom (ProductManager.productCache (ProductManager.processProductUpdates ps st).1)
  = dom (ProductManager.productCache st.1)
    ∪ list_to_set (Product.productId <$> ps).
Proof.
  revert st. induction ps as [|p ps IH]; intros st.
  - simpl. set_solver.
  - change (ProductManager.processProductUpdates (p :: ps) st)
      with (ProductManager.processProductUpdates ps
              (ProductManager.processProduct st p)).
    rewrite IH, processProduct_dom, fmap_cons. simpl. set_solver.
Qed.

(** X3. After [processProductUpdates] the entry cached for a product is
    the one cached before or the entry of one of the processed snapshots
    of that product, and it is at least as new as the entry cached before
    and as every processed snapshot of that product. *)
Theorem processProductUpdates_newest (ps : list Product.IProduct)
    (st : ProductManager.t * ChannelManager.t) (id : string)
    (e' : ProductManager.CacheEntry) :
  ProductManager.productCache (ProductManager.processProductUpdates ps st).1 !! id
  = Some e' →
  (ProductManager.productCache st.1 !! id = Some e'
   ∨ ∃ p, p ∈ ps ∧ Product.productId p = id ∧ e' = Bot.entryOf p)
  ∧ (∀ e, ProductManager.productCache st.1 !! id = Some e →
          (ProductManager.lastUpdated e ≤ ProductManager.lastUpdated e')%Z)
  ∧ (∀ p, p ∈ ps → Product.productId p = id →
          (Product.lastUpdated p ≤ ProductManager.lastUpdated e')%Z).
Proof.
  intros He'. split; [by apply processProductUpdates_origin|]. split.
  - intros e He.
    destruct (processProductUpdates_version ps st id (ProductManager.lastUpdated e))
      as (v' & Hv' & Hle); [by rewrite He|].
    rewrite He' in Hv'. simpl in Hv'. by simplify_eq.
  - intros p Hp Hid.
    destruct (processProductUpdates_covers ps st p Hp) as (e & He & Hle).
    rewrite Hid, He' in He. by simplify_eq.
Qed.

(** Two snapshots of [P1] polled in the wrong order: the newer one
    stays. *)
Lemma processProductUpdates_newest_witness :
  (ProductManager.productCache (ProductManager.init, ([] : ChannelManager.t)).1
     !! "P1" = Some (Bot.entryOf (Sample.widget 9 1))
   ∨ ∃ p, p ∈ [Sample.widget 9 1; Sample.widget 8 2]
          ∧ Product.productId p = "P1"
          ∧ Bot.entryOf (Sample.widget 9 1) = Bot.entryOf p)
  ∧ (Product.lastUpdated (Sample.widget 8 2)
     ≤ ProductManager.lastUpdated (Bot.entryOf (Sample.widget 9 1)))%Z.
Proof.
  destruct (processProductUpdates_newest
              [Sample.widget 9 1; Sample.widget 8 2]
              (ProductManager.init, []) "P1"
              (Bot.entryOf (Sample.widget 9 1))
              ltac:(vm_compute; reflexivity)) as (Horigin & _ & Hnewest).
  split; [exact Horigin|].
  apply Hnewest; [right; left | reflexivity].
Defined.

(** X4. The presentation calls that one pass of [processProductUpdates]
    adds are the applied snapshots in the order of the list, each at most
    once per item of the list, and each of them passed the staleness test
    against the cache as it was before the pass: a snapshot that is not
    newer than what was cached at the start is never presented. *)
Theorem processProductUpdates_presented (ps : list Product.IProduct)
    (st : ProductManager.t * ChannelManager.t) :
  ∃ applied,
    applied `sublist_of` ps
    ∧ (ProductManager.processProductUpdates ps st).2
      = st.2 ++ (FullDocument <$> applied)
    ∧ Forall (fun p => ProductManager.isNewOrUpdated
                         (ProductManager.productCache st.1 !! Product.productId p)
                         (Product.lastUpdated p) = true) applied.
Proof. apply processProductUpdates_trace. Qed.

(** ** Filling the cache at start-up *)

Section Initialization.

Import ProductManager.

Implicit Types (pm : ProductManager.t) (p : Product.IProduct).

Lemma initializeProductCache_cons (q : Product.IProduct)
    (ps : list Product.IProduct) pm :
  initializeProductCache (ApiSuccess (q :: ps)) pm
  = initializeProductCache (ApiSuccess ps)
      (set_productCache
         (<[Product.productId q := Bot.entryOf q]> (productCache pm)) pm).
Proof. done. Qed.

Lemma initializeProductCache_other (ps : list Product.IProduct) pm (id : string) :
  id ∉ Product.productId <$> ps →
  productCache (initializeProductCache (ApiSuccess ps) pm) !! id
  = productCache pm !! id.
Proof.
  revert pm. induction ps as [|q ps IH]; intros pm Hnin; [done|].
  rewrite fmap_cons, not_elem_of_cons in Hnin. destruct Hnin as [Hne Hnin].
  rewrite initializeProductCache_cons, (IH _ Hnin). simpl.
  by rewrite lookup_insert_ne.
Qed.

End Initialization.

(** X5. [initializeProductCache] stores every fetched product without
    looking at what is cached: for a fetched list with distinct product
    ids, [getCachedProduct] afterwards returns exactly the fetched
    snapshot of each product, also when a newer one was cached before,
    and the entries of other products are left alone. *)
Theorem initializeProductCache_overwrites (ps : list Product.IProduct)
    (pm : ProductManager.t) :
  NoDup (Product.productId <$> ps) →
  (∀ p, p ∈ ps →
        ProductManager.getCachedProduct (Product.productId p)
          (ProductManager.initializeProductCache (ProductManager.ApiSuccess ps) pm)
        = Some p)
  ∧ (∀ id, id ∉ Product.productId <$> ps →
           ProductManager.getCachedProduct id
             (ProductManager.initializeProductCache
                (ProductManager.ApiSuccess ps) pm)
           = ProductManager.getCachedProduct id pm).
Proof.
  intros Hnd. split.
  - revert pm Hnd. induction ps as [|q ps IH]; intros pm Hnd p Hp.
    + by apply elem_of_nil in Hp.
    + rewrite fmap_cons in Hnd. apply NoDup_cons in Hnd as [Hq Hnd].
      rewrite initializeProductCache_cons.
      apply elem_of_cons in Hp as [->|Hp].
      * unfold ProductManager.getCachedProduct.
        rewrite initializeProductCache_other by done. simpl.
        by rewrite lookup_insert_eq.
      * by apply IH.
  - intros id Hid. unfold ProductManager.getCachedProduct.
    by rewrite initializeProductCache_other.
Qed.

(** The bot that holds [P1] at version 7 is initialised again with [P1]
    at version 3: the cache now answers with version 3. *)
Lemma initializeProductCache_overwrites_witness :
  ProductManager.getCachedProduct "P1"
    (ProductManager.initializeProductCache
       (ProductManager.ApiSuccess [Sample.widget 3 9])
       (Bot.productManager Sample.polledOnce))
  = Some (Sample.widget 3 9).
Proof.
  apply (proj1 (initializeProductCache_overwrites [Sample.widget 3 9]
                  (Bot.productManager Sample.polledOnce)
                  (NoDup_singleton _)) (Sample.widget 3 9)).
  by apply list_elem_of_singleton.
Defined.

(** ** The connection manager: heartbeat, messages and [disconnect] *)

Section Heartbeat.

Import WebSocket WebSocketManager.

Implicit Types (s : WebSocketManager.t).

Lemma send_ws s (m : Outgoing) : ws (send m s) = ws s.
Proof. by destruct (send_fields s m) as (? & _). Qed.

Lemma send_lastHeartbeat s (m : Outgoing) :
  lastHeartbeat (send m s) = lastHeartbeat s.
Proof. unfold send. by case_match. Qed.

Lemma handleMessage_pong now (m : WebSocketMessage)
    (st : WebSocketManager.t * ChannelManager.t) :
  type m = "PONG" →
  handleMessage now m st = (set_lastHeartbeat now st.1, st.2).
Proof. intros Hty. unfold handleMessage. by rewrite Hty. Qed.

End Heartbeat.

(** X6. A heartbeat tick on a connected manager that holds a socket hands
    a [PING] to [send] (so it goes out only if the socket is open), and
    when the last sign of life is more than 30 seconds old it terminates
    the socket. After that the connected flag is still set, but every
    message given to [send] is dropped. *)
Theorem heartbeat_timeout (now : Z) (s : WebSocketManager.t) :
  WebSocketManager.isConnected s = true →
  is_Some (WebSocketManager.ws s) →
  WebSocketManager.transmitted (WebSocketManager.heartbeatTick now s)
  = (if bool_decide (WebSocketManager.ws s = Some WebSocket.OPEN)
     then WebSocketManager.transmitted s ++ [WebSocketManager.PING]
     else WebSocketManager.transmitted s)
  ∧ WebSocketManager.ws (WebSocketManager.heartbeatTick now s)
    = (if (30000 <? now - WebSocketManager.lastHeartbeat s)%Z
       then Some WebSocket.CLOSING else WebSocketManager.ws s)
  ∧ ((30000 < now - WebSocketManager.lastHeartbeat s)%Z →
     WebSocketManager.isConnected (WebSocketManager.heartbeatTick now s) = true
     ∧ ∀ m, WebSocketManager.send m (WebSocketManager.heartbeatTick now s)
            = WebSocketManager.heartbeatTick now s).
Proof.
  intros Hc Hw.
  unfold WebSocketManager.heartbeatTick. rewrite Hc, bool_decide_eq_true_2 by done.
  simpl. rewrite send_lastHeartbeat.
  assert (Htx :
    WebSocketManager.transmitted (WebSocketManager.send WebSocketManager.PING s)
    = (if bool_decide (WebSocketManager.ws s = Some WebSocket.OPEN)
       then WebSocketManager.transmitted s ++ [WebSocketManager.PING]
       else WebSocketManager.transmitted s)).
  { unfold WebSocketManager.send. rewrite Hc. simpl. by case_bool_decide. }
  split; [|split].
  - by destruct (30000 <? now - WebSocketManager.lastHeartbeat s)%Z.
  - destruct (30000 <? now - WebSocketManager.lastHeartbeat s)%Z; [done|].
    apply send_ws.
  - intros Hlate. apply Z.ltb_lt in Hlate. rewrite Hlate. split.
    + simpl. destruct (send_fields s WebSocketManager.PING) as (_ & _ & -> & _).
      exact Hc.
    + intros m. apply send_discards. simpl. intros [_ Hopen]. discriminate Hopen.
Qed.

(** A connected manager with an open socket whose last sign of life is
    40 seconds old: the tick sends a ping and terminates the socket. *)
Lemma heartbeat_timeout_witness :
  WebSocketManager.ws (WebSocketManager.heartbeatTick 40000 Sample.connected)
  = Some WebSocket.CLOSING.
Proof.
  exact (proj1 (proj2 (heartbeat_timeout 40000 Sample.connected
                         eq_refl (ex_intro _ _ eq_refl)))).
Defined.

(** X7. A [PONG] resets the heartbeat clock: after a message of type
    [PONG] was handled at time [now], a heartbeat tick that comes at most
    30 seconds later never terminates the socket. *)
Theorem pong_resets_heartbeat (now later : Z)
    (m : WebSocketManager.WebSocketMessage)
    (st : WebSocketManager.t * ChannelManager.t) :
  WebSocketManager.type m = "PONG" →
  (later - now ≤ 30000)%Z →
  WebSocketManager.ws
    (WebSocketManager.heartbeatTick later
       (WebSocketManager.handleMessage now m st).1)
  = WebSocketManager.ws st.1.
Proof.
  intros Hty Hsoon. rewrite handleMessage_pong by done. simpl.
  unfold WebSocketManager.heartbeatTick. case_match; [|done].
  rewrite send_lastHeartbeat. simpl.
  apply Z.ltb_ge in Hsoon. rewrite Hsoon. by rewrite send_ws.
Qed.

(** The manager of the previous example receives a [PONG] at 39 seconds
    and ticks at 40 seconds: the socket stays open. *)
Lemma pong_resets_heartbeat_witness :
  WebSocketManager.ws
    (WebSocketManager.heartbeatTick 40000
       (WebSocketManager.handleMessage 39000 (Sample.pong 39000)
          (Sample.connected, [])).1)
  = Some WebSocket.OPEN.
Proof.
  exact (pong_resets_heartbeat 39000 40000 (Sample.pong 39000)
           (Sample.connected, []) eq_refl ltac:(lia)).
Defined.

(** X8. [disconnect] cancels no pending reconnect: when a reconnect timer
    is pending, the timer still fires after [disconnect], creates a new
    socket, and once that socket opens the manager is connected again. *)
Theorem disconnect_keeps_reconnect_timers (b : Bot.t) (now : Z)
    (guildId : option string) :
  WebSocketManager.reconnectTimers (Bot.webSocketManager b) ≠ [] →
  WebSocketManager.reconnectTimers
    (Bot.webSocketManager (Bot.step b Bot.Disconnect))
  = WebSocketManager.reconnectTimers (Bot.webSocketManager b)
  ∧ WebSocketManager.ws
      (Bot.webSocketManager (Bot.run b [Bot.Disconnect; Bot.ReconnectTimer]))
    = Some WebSocket.CONNECTING
  ∧ WebSocketManager.isConnected
      (Bot.webSocketManager
         (Bot.run b [Bot.Disconnect; Bot.ReconnectTimer;
                     Bot.SocketOpen now guildId]))
    = true.
Proof.
  intros Hpending.
  assert (Hkeep : WebSocketManager.reconnectTimers
                    (WebSocketManager.disconnect (Bot.webSocketManager b))
                  = WebSocketManager.reconnectTimers (Bot.webSocketManager b)).
  { destruct (Bot.webSocketManager b) as [w n c h l f ts tx].
    unfold WebSocketManager.disconnect. by destruct h, f, w. }
  split; [exact Hkeep|]. split.
  - change (Bot.run b [Bot.Disconnect; Bot.ReconnectTimer])
      with (Bot.step (Bot.step b Bot.Disconnect) Bot.ReconnectTimer).
    change (WebSocketManager.disconnect (Bot.webSocketManager b))
      with (Bot.webSocketManager (Bot.step b Bot.Disconnect)) in Hkeep.
    unfold Bot.step at 1.
    destruct (WebSocketManager.reconnectTimers
                (Bot.webSocketManager (Bot.step b Bot.Disconnect)));
      [by rewrite <- Hkeep in Hpending | done].
  - change (Bot.run b [Bot.Disconnect; Bot.ReconnectTimer;
                       Bot.SocketOpen now guildId])
      with (Bot.step (Bot.run b [Bot.Disconnect; Bot.ReconnectTimer])
              (Bot.SocketOpen now guildId)).
    pose proof (step_connection (Bot.run b [Bot.Disconnect; Bot.ReconnectTimer])
                  (Bot.SocketOpen now guildId)) as Hstep.
    cbv zeta beta iota in Hstep. by destruct Hstep as (? & _).
Qed.

(** The bot after one failed connection is told to disconnect while the
    first reconnect is pending. *)
Lemma disconnect_keeps_reconnect_timers_witness :
  WebSocketManager.ws
    (Bot.webSocketManager
       (Bot.run (Bot.run Bot.init [Bot.Connect; Bot.SocketClose])
          [Bot.Disconnect; Bot.ReconnectTimer]))
  = Some WebSocket.CONNECTING.
Proof.
  apply (disconnect_keeps_reconnect_timers
           (Bot.run Bot.init [Bot.Connect; Bot.SocketClose]) 0 None).
  vm_compute. discriminate.
Defined.

(** X9. [disconnect] closes the socket, and the ['close'] event that
    follows is handled like any other disconnection: on a manager whose
    attempt counter is zero (a connected one) it schedules a reconnect
    after [reconnectDelay] and starts fallback polling again. *)
Theorem disconnect_then_close_reconnects (b : Bot.t) :
  WebSocketManager.reconnectAttempts (Bot.webSocketManager b) = 0 →
  let s' := Bot.webSocketManager (Bot.run b [Bot.Disconnect; Bot.SocketClose]) in
  WebSocketManager.reconnectTimers s'
  = WebSocketManager.reconnectTimers (Bot.webSocketManager b)
    ++ [WebSocketManager.reconnectDelay]
  ∧ WebSocketManager.reconnectAttempts s' = 1
  ∧ WebSocketManager.fallbackPollingInterval s' = true.
Proof.
  intros H0 s'. subst s'. unfold Bot.run. cbn [foldl].
  destruct b as [s pm ch]. simpl in *.
  destruct s as [w n c h l f ts tx]. simpl in H0. subst n.
  unfold WebSocketManager.disconnect, Bot.socketBecomes.
  destruct h, f, w; done.
Qed.

(** The connected bot is told to disconnect and its socket closes. *)
Lemma disconnect_then_close_reconnects_witness :
  WebSocketManager.fallbackPollingInterval
    (Bot.webSocketManager
       (Bot.run (Bot.run Bot.init [Bot.Connect; Bot.SocketOpen 0 None])
          [Bot.Disconnect; Bot.SocketClose]))
  = true.
Proof.
  apply (disconnect_then_close_reconnects
           (Bot.run Bot.init [Bot.Connect; Bot.SocketOpen 0 None])).
  reflexivity.
Defined.

(** X10. The bot reacts to a message of the hub only if it is a [PONG]
    or a [PRODUCT_UPDATE] whose operation is insert or update. Every
    other message, the [PRODUCT_UPDATE_REQUIRED] that the hub sends to
    bots included, leaves the whole bot as it was. *)
Theorem other_messages_ignored (b : Bot.t) (now : Z)
    (m : WebSocketManager.WebSocketMessage) :
  WebSocketManager.type m ≠ "PONG" →
  (WebSocketManager.type m = "PRODUCT_UPDATE" →
   WebSocketManager.operation m ≠ "insert"
   ∧ WebSocketManager.operation m ≠ "update") →
  Bot.step b (Bot.SocketMessage now m) = b.
Proof.
  intros Hpong Hupd. destruct b as [s pm ch]. simpl.
  unfold WebSocketManager.handleMessage.
  destruct (WebSocketManager.type m =? "CONNECTION_ESTABLISHED")%string; [done|].
  destruct (String.eqb_spec (WebSocketManager.type m) "PRODUCT_UPDATE")
    as [Hty | _].
  - destruct (Hupd Hty) as [Hi Hu]. simpl.
    unfold WebSocketManager.handleProductUpdate.
    apply String.eqb_neq in Hi, Hu. rewrite Hi, Hu. simpl.
    by destruct (WebSocketManager.operation m =? "delete")%string.
  - apply String.eqb_neq in Hpong. by rewrite Hpong.
Qed.

(** A message with the type of the hub's [PRODUCT_UPDATE_REQUIRED]. *)
Lemma other_messages_ignored_witness :
  Bot.step Sample.polledOnce
    (Bot.SocketMessage 6000
       {| WebSocketManager.type :=
            WebSocketServer.messageType
              (WebSocketServer.PRODUCT_UPDATE_REQUIRED "P1" "update");
          WebSocketManager.operation := "update";
          WebSocketManager.data := DocumentKey "P1";
          WebSocketManager.timestamp := 6000 |})
  = Sample.polledOnce.
Proof.
  apply other_messages_ignored; simpl; [discriminate | discriminate].
Defined.

(** ** The hub: messages of the clients, heartbeat, typed broadcast *)

Section HubMore.

Import WebSocket WebSocketServer.

Implicit Types (h : WebSocketServer.t) (c : CustomWebSocket).

(** Whatever [send] does, the frames that a pass of [forEachSend] adds
    are copies of the one frame, each for a visited socket that passed
    the guard. *)
Lemma forEachSend_delivered (sendRaises guard : CustomWebSocket → bool)
    (f : Frame) (cs : list CustomWebSocket) h :
  ∃ new,
    delivered (stateOf (forEachSend sendRaises guard f cs h))
    = delivered h ++ new
    ∧ Forall (fun d => d.2 = f
                       ∧ ∃ c, c ∈ cs ∧ socketId c = d.1 ∧ guard c = true) new.
Proof.
  revert h. induction cs as [|c cs IH]; intros h.
  - exists []. by rewrite app_nil_r.
  - simpl. destruct (guard c) eqn:Hg.
    + destruct (sendRaises c).
      * exists []. by rewrite app_nil_r.
      * destruct (IH {| clients := clients h;
                        delivered := delivered h ++ [(socketId c, f)] |})
          as (new & Hd & Hall).
        exists ((socketId c, f) :: new). split.
        { rewrite Hd. simpl. by rewrite <- app_assoc. }
        constructor.
        { split; [done|]. exists c. split; [left | done]. }
        eapply Forall_impl; [exact Hall|].
        intros d (Hf & c' & Hin & Hid & Hg'). split; [done|].
        exists c'. split; [by right | done].
    + destruct (IH h) as (new & Hd & Hall). exists new. split; [done|].
      eapply Forall_impl; [exact Hall|].
      intros d (Hf & c' & Hin & Hid & Hg'). split; [done|].
      exists c'. split; [by right | done].
Qed.

(** A tick of the heartbeat on which no [ping] raises treats every
    socket on its own. *)
Lemma forEachHeartbeat_map (pingRaises : CustomWebSocket → bool)
    (cs : list CustomWebSocket) :
  (∀ c, pingRaises c = false) →
  (forEachHeartbeat pingRaises cs).1.1
  = (fun c => if isAlive c
              then {| socketId := socketId c; readyState := readyState c;
                      isAlive := false; clientType := clientType c |}
              else terminate c) <$> cs.
Proof.
  intros Hok. induction cs as [|c cs IH]; [done|]. simpl.
  destruct (isAlive c); simpl.
  - rewrite Hok. simpl. by rewrite IH.
  - by rewrite IH.
Qed.

(** On such a tick, the sockets that are pinged are the ones that were
    alive, and the loop ends normally. *)
Lemma forEachHeartbeat_pinged (pingRaises : CustomWebSocket → bool)
    (cs : list CustomWebSocket) :
  (∀ c, pingRaises c = false) →
  (forEachHeartbeat pingRaises cs).1.2
  = socketId <$> filter (fun c => isAlive c = true) cs
  ∧ (forEachHeartbeat pingRaises cs).2 = false.
Proof.
  intros Hok. induction cs as [|c cs [IHp IHr]]; [done|]. simpl.
  destruct (isAlive c) eqn:Ha; simpl.
  - rewrite Hok. simpl. rewrite filter_cons_True by done.
    by rewrite IHp, IHr.
  - rewrite filter_cons_False by (by rewrite Ha). by rewrite IHp, IHr.
Qed.

Lemma terminate_not_open c : readyState (terminate c) ≠ OPEN.
Proof.
  unfold terminate. case_bool_decide as Hc; simpl; [by rewrite Hc | done].
Qed.

Lemma terminate_socketId c : socketId (terminate c) = socketId c.
Proof. unfold terminate. by case_bool_decide. Qed.

Lemma terminate_isAlive c : isAlive (terminate c) = isAlive c.
Proof. unfold terminate. by case_bool_decide. Qed.

Lemma forEachSend_none_open (sendRaises : CustomWebSocket → bool) (f : Frame)
    (cs : list CustomWebSocket) h :
  Forall (fun c => readyState c ≠ OPEN) cs →
  forEachSend sendRaises isOpen f cs h = Returned h.
Proof.
  induction 1 as [|c cs Hc Hall IH]; [done|]. simpl.
  unfold isOpen at 1. by rewrite bool_decide_eq_false_2.
Qed.

End HubMore.

(** X11. The hub answers a [PING] of a client with one [PONG], sent to
    that client only and only if its socket is open; any other message,
    or one that cannot be parsed, is answered with nothing. Handling a
    message never changes the registered sockets, and what [send] raises
    is caught, leaving the hub as it was. *)
Theorem hub_answers_ping (sendRaises : WebSocketServer.CustomWebSocket → bool)
    (now : Z) (ws : WebSocketServer.CustomWebSocket)
    (parsedType : option string) (h : WebSocketServer.t) :
  WebSocketServer.clients
    (WebSocketServer.handleMessage sendRaises now ws parsedType h)
  = WebSocketServer.clients h
  ∧ WebSocketServer.delivered
      (WebSocketServer.handleMessage sendRaises now ws parsedType h)
    = WebSocketServer.delivered h
      ++ (if bool_decide (parsedType
                          = Some (WebSocketManager.outgoingType WebSocketManager.PING))
             && WebSocketServer.isOpen ws && negb (sendRaises ws)
          then [(WebSocketServer.socketId ws, (WebSocketServer.PONG, now))]
          else []).
Proof.
  unfold WebSocketServer.handleMessage. destruct parsedType as [ty|].
  - destruct (String.eqb_spec ty "PING") as [-> | Hne].
    + rewrite bool_decide_eq_true_2 by done.
      unfold WebSocketServer.sendToClient. cbn [WebSocketServer.forEachSend].
      destruct (WebSocketServer.isOpen ws); [destruct (sendRaises ws)|];
        simpl; by rewrite ?app_nil_r.
    + rewrite bool_decide_eq_false_2 by (intros [= ->]; done).
      simpl. rewrite app_nil_r.
      by destruct (ty =? "SUBSCRIBE_PRODUCTS")%string.
  - simpl. by rewrite app_nil_r.
Qed.

(** X12. The heartbeat of the hub never removes a socket from the set,
    and two ticks with no [pong] in between leave no registered socket
    open: every socket is terminated by the second tick at the latest, so
    a broadcast after them reaches nobody. *)
Theorem hub_heartbeat_silent (pingRaises : WebSocketServer.CustomWebSocket → bool)
    (h : WebSocketServer.t) :
  (∀ c, pingRaises c = false) →
  let h2 := WebSocketServer.heartbeatTick pingRaises
              (WebSocketServer.heartbeatTick pingRaises h) in
  WebSocketServer.socketId <$> WebSocketServer.clients h2
  = WebSocketServer.socketId <$> WebSocketServer.clients h
  ∧ Forall (fun c => WebSocketServer.readyState c ≠ WebSocket.OPEN)
      (WebSocketServer.clients h2)
  ∧ ∀ sendRaises now message,
      WebSocketServer.broadcast sendRaises now message h2
      = WebSocketServer.Returned h2.
Proof.
  intros Hok h2.
  assert (Hclients :
    WebSocketServer.clients h2
    = (fun c => WebSocketServer.terminate
                  (if WebSocketServer.isAlive c
                   then {| WebSocketServer.socketId := WebSocketServer.socketId c;
                           WebSocketServer.readyState := WebSocketServer.readyState c;
                           WebSocketServer.isAlive := false;
                           WebSocketServer.clientType := WebSocketServer.clientType c |}
                   else WebSocketServer.terminate c))
      <$> WebSocketServer.clients h).
  { subst h2. unfold WebSocketServer.heartbeatTick. simpl.
    rewrite !forEachHeartbeat_map by done. rewrite <- list_fmap_compose.
    apply list_fmap_ext. intros i c _. simpl.
    destruct (WebSocketServer.isAlive c) eqn:Ha; [done|].
    by rewrite terminate_isAlive, Ha. }
  assert (Hclosed : Forall (fun c => WebSocketServer.readyState c ≠ WebSocket.OPEN)
                      (WebSocketServer.clients h2)).
  { rewrite Hclients. apply Forall_fmap, Forall_true. intros c. simpl.
    apply terminate_not_open. }
  split; [|split; [exact Hclosed|]].
  - rewrite Hclients, <- list_fmap_compose. apply list_fmap_ext.
    intros i c _. simpl. rewrite terminate_socketId.
    destruct (WebSocketServer.isAlive c); [done|]. apply terminate_socketId.
  - intros sendRaises now message. by apply forEachSend_none_open.
Qed.

(** Three open sockets that answer no ping: after two ticks a broadcast
    returns without a delivery. *)
Lemma hub_heartbeat_silent_witness :
  WebSocketServer.recipients (Sample.stockUpdate, 0%Z)
    (WebSocketServer.stateOf
       (WebSocketServer.broadcast Sample.noneRaises 0 Sample.stockUpdate
          (WebSocketServer.heartbeatTick Sample.noneRaises
             (WebSocketServer.heartbeatTick Sample.noneRaises Sample.threeOpen))))
  = [].
Proof.
  destruct (hub_heartbeat_silent Sample.noneRaises Sample.threeOpen
              (fun _ => eq_refl)) as (_ & _ & Hb).
  rewrite Hb. reflexivity.
Defined.

(** X13. A socket that is alive at a tick is pinged at that tick, and
    when it answers the ping before the next tick, it is pinged again at
    the next tick and keeps its [readyState]: the heartbeat terminates
    only sockets that answered no ping. *)
Theorem hub_heartbeat_pong (pingRaises : WebSocketServer.CustomWebSocket → bool)
    (h : WebSocketServer.t) (i : nat) (c : WebSocketServer.CustomWebSocket) :
  (∀ c, pingRaises c = false) →
  WebSocketServer.clients h !! i = Some c →
  WebSocketServer.isAlive c = true →
  let first := WebSocketServer.forEachHeartbeat pingRaises
                 (WebSocketServer.clients h) in
  let answered := WebSocketServer.onPong c
                    (WebSocketServer.heartbeatTick pingRaises h) in
  let second := WebSocketServer.forEachHeartbeat pingRaises
                  (WebSocketServer.clients answered) in
  WebSocketServer.socketId c ∈ first.1.2
  ∧ WebSocketServer.socketId c ∈ second.1.2
  ∧ second.2 = false
  ∧ WebSocketServer.clients
      (WebSocketServer.heartbeatTick pingRaises answered) !! i
    = Some {| WebSocketServer.socketId := WebSocketServer.socketId c;
              WebSocketServer.readyState := WebSocketServer.readyState c;
              WebSocketServer.isAlive := false;
              WebSocketServer.clientType := WebSocketServer.clientType c |}.
Proof.
  intros Hok Hi Ha first answered second.
  assert (Hanswered :
    WebSocketServer.clients answered !! i
    = Some {| WebSocketServer.socketId := WebSocketServer.socketId c;
              WebSocketServer.readyState := WebSocketServer.readyState c;
              WebSocketServer.isAlive := true;
              WebSocketServer.clientType := WebSocketServer.clientType c |}).
  { subst answered. unfold WebSocketServer.heartbeatTick, WebSocketServer.onPong.
    simpl. rewrite forEachHeartbeat_map by done.
    rewrite !list_lookup_fmap, Hi. simpl. rewrite Ha. simpl.
    by rewrite bool_decide_eq_true_2. }
  split; [|split; [|split]].
  - subst first.
    rewrite (proj1 (forEachHeartbeat_pinged pingRaises _ Hok)).
    apply list_elem_of_fmap. exists c. split; [done|].
    apply list_elem_of_filter. split; [done|].
    by eapply list_elem_of_lookup_2.
  - subst second.
    rewrite (proj1 (forEachHeartbeat_pinged pingRaises _ Hok)).
    apply list_elem_of_fmap. eexists. split; [|apply list_elem_of_filter; split;
      [|eapply list_elem_of_lookup_2; exact Hanswered]]; done.
  - subst second. apply (forEachHeartbeat_pinged pingRaises _ Hok).
  - change (WebSocketServer.clients
              (WebSocketServer.heartbeatTick pingRaises answered))
      with (WebSocketServer.forEachHeartbeat pingRaises
              (WebSocketServer.clients answered)).1.1.
    rewrite forEachHeartbeat_map by done.
    rewrite list_lookup_fmap, Hanswered. done.
Qed.

(** The first of three open sockets answers the ping between two
    ticks: it is pinged at the second tick, alone. *)
Lemma hub_heartbeat_pong_witness :
  1 ∈ (WebSocketServer.forEachHeartbeat Sample.noneRaises
         (WebSocketServer.clients
            (WebSocketServer.onPong (Sample.socket 1 WebSocket.OPEN)
               (WebSocketServer.heartbeatTick Sample.noneRaises
                  Sample.threeOpen)))).1.2.
Proof.
  exact (proj1 (proj2 (hub_heartbeat_pong Sample.noneRaises Sample.threeOpen 0
                         (Sample.socket 1 WebSocket.OPEN)
                         (fun _ => eq_refl) eq_refl eq_refl))).
Defined.

(** X14. Whatever [send] does, [broadcastToType] hands the frame only to
    registered sockets of the given type that are open: a socket of the
    other type never receives it. *)
Theorem broadcastToType_only_type
    (sendRaises : WebSocketServer.CustomWebSocket → bool)
    (ty : WebSocketServer.ClientType) (now : Z)
    (message : WebSocketServer.Message) (h : WebSocketServer.t) :
  ∃ new,
    WebSocketServer.delivered
      (WebSocketServer.stateOf
         (WebSocketServer.broadcastToType sendRaises ty now message h))
    = WebSocketServer.delivered h ++ new
    ∧ Forall (fun d => d.2 = (message, now)
                       ∧ ∃ c, c ∈ WebSocketServer.clients h
                              ∧ WebSocketServer.socketId c = d.1
                              ∧ WebSocketServer.clientType c = ty
                              ∧ WebSocketServer.readyState c = WebSocket.OPEN)
        new.
Proof.
  unfold WebSocketServer.broadcastToType.
  destruct (forEachSend_delivered sendRaises
              (fun client => WebSocketServer.isOpen client
                             && bool_decide (WebSocketServer.clientType client = ty))
              (message, now) (WebSocketServer.clients h) h)
    as (new & Hd & Hall).
  exists new. split; [exact Hd|].
  eapply Forall_impl; [exact Hall|].
  intros d (Hf & c & Hin & Hid & Hg). split; [done|].
  exists c. apply andb_true_iff in Hg as [Ho Hty].
  apply bool_decide_eq_true_1 in Ho, Hty. done.
Qed.

(** ** The change feed: what one product change sends *)

(** X15. When no send raises, the handler of a product change sends one
    [PRODUCT_UPDATE] to every open socket, in registration order, and
    then one [PRODUCT_UPDATE_REQUIRED] to every open socket of a bot: a
    bot receives two frames for each change and a dashboard one. The
    payload is the full document when the notification carries one and
    the document key otherwise. *)
Theorem product_change_fanout
    (sendRaises : WebSocketServer.CustomWebSocket → bool) (now : Z)
    (change : ChangeStreams.Change) (h : WebSocketServer.t) :
  (∀ c, c ∈ WebSocketServer.clients h →
        WebSocketServer.isOpen c = true → sendRaises c = false) →
  ChangeStreams.onChange sendRaises now change h
  = WebSocketServer.Returned
      {| WebSocketServer.clients := WebSocketServer.clients h;
         WebSocketServer.delivered :=
           WebSocketServer.delivered h
           ++ ((fun c =>
                  (WebSocketServer.socketId c,
                   (WebSocketServer.PRODUCT_UPDATE
                      (ChangeStreams.operationType change)
                      (from_option FullDocument
                         (DocumentKey (ChangeStreams.documentKey change))
                         (ChangeStreams.fullDocument change)), now)))
                 <$> filter (fun c => WebSocketServer.isOpen c = true)
                       (WebSocketServer.clients h))
           ++ ((fun c =>
                  (WebSocketServer.socketId c,
                   (WebSocketServer.PRODUCT_UPDATE_REQUIRED
                      (from_option Product.productId
                         (ChangeStreams.documentKey change)
                         (ChangeStreams.fullDocument change))
                      (ChangeStreams.operationType change), now)))
                 <$> filter (fun c => WebSocketServer.isOpen c
                                      && bool_decide (WebSocketServer.clientType c
                                                      = WebSocketServer.bot)
                                      = true)
                       (WebSocketServer.clients h)) |}.
Proof.
  intros Hok. unfold ChangeStreams.onChange, WebSocketServer.broadcast,
    WebSocketServer.broadcastToType.
  rewrite forEachSend_returns by exact Hok. simpl.
  rewrite forEachSend_returns.
  - simpl. rewrite <- app_assoc. by destruct (ChangeStreams.fullDocument change).
  - intros c Hin Hg. apply andb_true_iff in Hg as [Ho _]. by apply Hok.
Qed.

(** Two open bots and a closing one: each open bot receives the update
    and the request. *)
Lemma product_change_fanout_witness :
  (WebSocketServer.delivered
     (WebSocketServer.stateOf
        (ChangeStreams.onChange Sample.noneRaises 0 Sample.descriptionEdit
           Sample.oneClosing))).*1
  = [1; 3; 1; 3].
Proof.
  rewrite (product_change_fanout Sample.noneRaises 0 Sample.descriptionEdit
             Sample.oneClosing (fun _ _ _ => eq_refl)).
  reflexivity.
Defined.

(** ** The authorisation callback of the middleware *)

Section Paths.

Import Middleware.

Lemma prefix_append (a b : string) : String.prefix a (a ++ b)%string = true.
Proof.
  induction a as [|c a IH].
  - change (String.prefix "" b = true). by destruct b.
  - change (String.prefix (String c a) (String c (a ++ b)) = true).
    cbn [String.prefix]. destruct (Ascii.ascii_dec c c); [exact IH | done].
Qed.

Lemma includes_prefix (needle s : string) :
  String.prefix needle s = true → includes needle s = true.
Proof. destruct s; simpl; by intros ->. Qed.

Lemma includes_append (needle before after : string) :
  includes needle (before ++ needle ++ after)%string = true.
Proof.
  induction before as [|c before IH].
  - change (includes needle (needle ++ after)%string = true).
    apply includes_prefix, prefix_append.
  - change (includes needle (String c (before ++ needle ++ after)) = true).
    cbn [includes]. rewrite IH. apply orb_true_r.
Qed.

End Paths.

(** X16. The middleware asks for a token only on paths that start with
    [/api] and do not contain [/api/auth]. So a path that contains
    [/api/auth] anywhere is let through without a token, whatever comes
    before and after it, and so is every path under [/dashboard]; an
    API path that does not contain [/api/auth] is let through exactly
    when there is a token. *)
Theorem middleware_authorized :
  (∀ before after : string,
      Middleware.authorized (None : option unit)
        (before ++ "/api/auth" ++ after)%string = true)
  ∧ (∀ rest : string,
        Middleware.authorized (None : option unit) ("/dashboard" ++ rest)%string
        = true)
  ∧ (∀ (Token : Type) (token : option Token) (rest : string),
        Middleware.includes "/api/auth" ("/api" ++ rest)%string = false →
        Middleware.authorized token ("/api" ++ rest)%string
        = bool_decide (is_Some token)).
Proof.
  split; [|split].
  - intros before after. unfold Middleware.authorized.
    by rewrite includes_append, andb_false_r.
  - intros rest. reflexivity.
  - intros Token token rest Hno. unfold Middleware.authorized.
    rewrite Hno. unfold Middleware.startsWith.
    by rewrite (prefix_append "/api" rest).
Qed.

(** A product route followed by [/api/auth] passes without a token, the
    product route itself does not. *)
Lemma middleware_authorized_witness :
  Middleware.authorized (None : option unit) "/api/products/api/auth" = true
  ∧ Middleware.authorized (None : option unit) "/api/products" = false.
Proof.
  destruct middleware_authorized as (Hcontains & _ & Hapi).
  split.
  - exact (Hcontains "/api/products" "").
  - exact (Hapi unit None "/products" eq_refl).
Defined.

(** ** Saving a product and polling it *)

(** X17. The save hook moves [lastUpdated] exactly when the document
    reports the price, the stock or the active flag as modified. So when a
    cached product is saved with none of the three modified, whatever else
    was changed, a poll that returns the saved document changes nothing
    and the cache keeps the product as it was; when one of the three is
    reported as modified (also with its old value set back) and the clock
    is past the cached [lastUpdated], the poll stores the saved
    document. *)
Theorem save_then_poll (now : Z) (isModified : string → bool)
    (stored edited : Product.IProduct)
    (st : ProductManager.t * ChannelManager.t) :
  ProductManager.productCache st.1 !! Product.productId stored
  = Some (Bot.entryOf stored) →
  Product.productId edited = Product.productId stored →
  Product.lastUpdated edited = Product.lastUpdated stored →
  let saved := ProductSchema.preSave now isModified edited in
  (isModified "price" = false →
   isModified "stock" = false →
   isModified "isActive" = false →
   saved = edited
   ∧ ProductManager.processProduct st saved = st
   ∧ ProductManager.getCachedProduct (Product.productId stored)
       (ProductManager.processProduct st saved).1
     = Some stored)
  ∧ ((isModified "price" = true
      ∨ isModified "stock" = true
      ∨ isModified "isActive" = true) →
     (Product.lastUpdated stored < now)%Z →
     Product.lastUpdated saved = now
     ∧ ProductManager.getCachedProduct (Product.productId stored)
         (ProductManager.processProduct st saved).1
       = Some saved).
Proof.
  intros Hcached Hid Hlast saved. split.
  - intros Hp Hs Ha.
    assert (Hsaved : saved = edited).
    { subst saved. unfold ProductSchema.preSave. by rewrite Hp, Hs, Ha. }
    assert (Hnoop : ProductManager.processProduct st saved = st).
    { rewrite Hsaved.
      apply (processProduct_stale_noop st edited (Bot.entryOf stored)).
      - by rewrite Hid.
      - simpl. lia. }
    split; [exact Hsaved|]. split; [exact Hnoop|]. rewrite Hnoop.
    unfold ProductManager.getCachedProduct. by rewrite Hcached.
  - intros Hchanged Hnow.
    assert (Hsaved : saved
                     = {| Product.productId := Product.productId edited;
                          Product.name := Product.name edited;
                          Product.price := Product.price edited;
                          Product.stock := Product.stock edited;
                          Product.isActive := Product.isActive edited;
                          Product.lastUpdated := now |}).
    { subst saved. unfold ProductSchema.preSave.
      destruct Hchanged as [H | [H | H]]; rewrite H; simpl;
        by rewrite ?orb_true_r. }
    split; [by rewrite Hsaved|].
    assert (Hsid : Product.productId saved = Product.productId stored)
      by (by rewrite Hsaved).
    unfold ProductManager.getCachedProduct.
    rewrite processProduct_applied.
    + simpl. rewrite <- Hsid. by rewrite lookup_insert_eq.
    + rewrite Hsid, Hcached. simpl. apply Z.ltb_lt. by rewrite Hsaved.
Qed.

(** The cached [P1] of version 7 is renamed and saved at time 9000, with
    the name as its only modified path: after the poll of the saved
    document the cache still holds the old product. *)
Lemma save_then_poll_witness :
  ProductManager.getCachedProduct "P1"
    (ProductManager.processProduct
       (Bot.productManager Sample.polledOnce, [])
       (ProductSchema.preSave 9000 (fun path => (path =? "name")%string)
          Sample.renamed)).1
  = Some (Sample.widget 7 5).
Proof.
  refine (proj2 (proj2 (proj1 (save_then_poll 9000
                                 (fun path => (path =? "name")%string)
                                 (Sample.widget 7 5) Sample.renamed
                                 (Bot.productManager Sample.polledOnce, [])
                                 _ eq_refl eq_refl)
                          eq_refl eq_refl eq_refl))).
  vm_compute. reflexivity.
Defined.

(** ** Buttons: from the embed to the purchase handler *)

Section Buttons.

Import PurchaseFlow.

Lemma split_nonempty (sep : Ascii.ascii) (s : string) : split sep s ≠ [].
Proof.
  destruct s as [|c s]; [done|]. cbn [split].
  destruct (Ascii.eqb c sep); [done|]. by destruct (split sep s).
Qed.

Lemma split_append (sep : Ascii.ascii) (a b : string) :
  sep ∉ list_ascii_of_string a →
  split sep (a ++ String sep b)%string = a :: split sep b.
Proof.
  induction a as [|c a IH]; intros Hno.
  - change (split sep (String sep b) = "" :: split sep b).
    cbn [split]. by rewrite Ascii.eqb_refl.
  - change (split sep (String c (a ++ String sep b)) = String c a :: split sep b).
    cbn [list_ascii_of_string] in Hno. apply not_elem_of_cons in Hno as [Hc Hno].
    cbn [split]. destruct (Ascii.eqb_spec c sep) as [->|_]; [done|].
    by rewrite (IH Hno).
Qed.

Lemma split_none (sep : Ascii.ascii) (a : string) :
  sep ∉ list_ascii_of_string a → split sep a = [a].
Proof.
  induction a as [|c a IH]; intros Hno; [done|].
  cbn [list_ascii_of_string] in Hno. apply not_elem_of_cons in Hno as [Hc Hno].
  cbn [split]. destruct (Ascii.eqb_spec c sep) as [->|_]; [done|].
  by rewrite (IH Hno).
Qed.

Lemma split_buy (rest : string) :
  split ":" ("buy_btn:" ++ rest)%string = "buy_btn" :: split ":" rest.
Proof. exact (split_append ":" "buy_btn" rest ltac:(vm_compute; set_solver)). Qed.

Lemma handleBuyButton_buyCustomId (p : Product.IProduct)
    (pm : ProductManager.t) :
  ":"%char ∉ list_ascii_of_string (Product.productId p) →
  handleBuyButton (ProductEmbedManager.buyCustomId p) pm
  = match ProductManager.getCachedProduct (Product.productId p) pm with
    | None => ProductNotFound
    | Some q =>
        if ProductEmbedManager.buyDisabled q then OutOfStock
        else CreateTicket q
    end.
Proof.
  intros Hno. unfold handleBuyButton, ProductEmbedManager.buyCustomId.
  rewrite split_buy, split_none by done.
  change (["buy_btn"; Product.productId p] !! 1%nat)
    with (Some (Product.productId p)).
  cbv beta iota.
  by destruct (ProductManager.getCachedProduct (Product.productId p) pm).
Qed.

End Buttons.

(** X18. The Buy button of an embed leads back to its product: for a
    product whose id contains no colon, the custom id of the button is
    routed to the purchase handler, which looks up exactly that id in the
    cache; it refuses when nothing is cached or when the cached product
    would have its button disabled, and asks for a ticket for the cached
    product otherwise. When the id contains a colon, the handler looks up
    the part before the colon only. *)
Theorem buy_button_round_trip :
  (∀ (p : Product.IProduct) (pm : ProductManager.t),
      ":"%char ∉ list_ascii_of_string (Product.productId p) →
      DiscordBot.handleButtonInteraction (ProductEmbedManager.buyCustomId p)
      = DiscordBot.Buy
      ∧ PurchaseFlow.handleBuyButton (ProductEmbedManager.buyCustomId p) pm
        = match ProductManager.getCachedProduct (Product.productId p) pm with
          | None => PurchaseFlow.ProductNotFound
          | Some q =>
              if ProductEmbedManager.buyDisabled q then PurchaseFlow.OutOfStock
              else PurchaseFlow.CreateTicket q
          end)
  ∧ (∀ (a b : string) (pm : ProductManager.t),
        ":"%char ∉ list_ascii_of_string a →
        PurchaseFlow.handleBuyButton ("buy_btn:" ++ a ++ ":" ++ b)%string pm
        = PurchaseFlow.handleBuyButton ("buy_btn:" ++ a)%string pm).
Proof.
  split.
  - intros p pm Hno. split.
    { unfold DiscordBot.handleButtonInteraction, Middleware.startsWith,
        ProductEmbedManager.buyCustomId.
      by rewrite prefix_append. }
    by apply handleBuyButton_buyCustomId.
  - intros a b pm Hno. unfold PurchaseFlow.handleBuyButton.
    rewrite !split_buy, (split_none ":" a Hno).
    change (a ++ ":" ++ b)%string with (a ++ String ":" b)%string.
    by rewrite (split_append ":" a b Hno).
Qed.

(** The Buy button of [P1] on the bot that holds [P1] with five in
    stock. *)
Lemma buy_button_round_trip_witness :
  PurchaseFlow.handleBuyButton
    (ProductEmbedManager.buyCustomId (Sample.widget 7 5))
    (Bot.productManager Sample.polledOnce)
  = PurchaseFlow.CreateTicket (Sample.widget 7 5).
Proof.
  rewrite (proj2 (proj1 buy_button_round_trip (Sample.widget 7 5)
                    (Bot.productManager Sample.polledOnce)
                    ltac:(vm_compute; set_solver))).
  vm_compute. reflexivity.
Defined.

(** X19. The purchase handler reads the cache, and pushed updates do
    not reach the cache: after a pushed update of a product, whatever
    stock or active flag the update carries, the Buy button is still
    answered from the snapshot that was cached before. *)
Theorem purchase_ignores_push (b : Bot.t) (now : Z) (op : string)
    (p q : Product.IProduct) :
  ":"%char ∉ list_ascii_of_string (Product.productId p) →
  Bot.cache b !! Product.productId p = Some (Bot.entryOf q) →
  ProductEmbedManager.buyDisabled q = false →
  PurchaseFlow.handleBuyButton (ProductEmbedManager.buyCustomId p)
    (Bot.productManager (Bot.viaPush now op p b))
  = PurchaseFlow.CreateTicket q.
Proof.
  intros Hno Hcached Hq.
  unfold Bot.viaPush. rewrite push_productManager.
  rewrite (handleBuyButton_buyCustomId p (Bot.productManager b) Hno).
  unfold ProductManager.getCachedProduct. fold (Bot.cache b).
  rewrite Hcached. simpl. by rewrite Hq.
Qed.

(** [P1] is cached with five in stock, the hub pushes [P1] with none in
    stock, and the Buy button still asks for a ticket. *)
Lemma purchase_ignores_push_witness :
  PurchaseFlow.handleBuyButton
    (ProductEmbedManager.buyCustomId (Sample.widget 9 0))
    (Bot.productManager
       (Bot.viaPush 6000 "update" (Sample.widget 9 0) Sample.polledOnce))
  = PurchaseFlow.CreateTicket (Sample.widget 7 5).
Proof.
  apply purchase_ignores_push;
    [vm_compute; set_solver | vm_compute; reflexivity | reflexivity].
Defined.

(** ** The payment configuration of the bot *)

(** X20. [getPaymentConfig] keeps a fetched configuration for five
    minutes: a call within that time returns it without asking the
    dashboard, whatever the dashboard would answer. When it does ask and
    the request fails, it returns the built-in default (empty account
    data, no cryptocurrency option) and keeps what it had stored, so a
    configuration fetched earlier is not used as a fallback. *)
Theorem payment_config_cache :
  (∀ (now0 fetchedAt now later : Z) (data : PaymentManager.PaymentConfig)
     (r : PaymentManager.FetchResult) (s : PaymentManager.t),
      (PaymentManager.paymentConfig s = None
       ∨ (PaymentManager.cacheDuration ≤ now0 - PaymentManager.lastFetch s)%Z) →
      (now - fetchedAt < PaymentManager.cacheDuration)%Z →
      let s1 := (PaymentManager.getPaymentConfig now0 fetchedAt
                   (PaymentManager.ApiSuccess data) s).2 in
      PaymentManager.getPaymentConfig now later r s1 = (data, s1))
  ∧ (∀ (now fetchedAt : Z) (r : PaymentManager.FetchResult)
       (s : PaymentManager.t),
        (PaymentManager.paymentConfig s = None
         ∨ (PaymentManager.cacheDuration ≤ now - PaymentManager.lastFetch s)%Z) →
        (∀ data, r ≠ PaymentManager.ApiSuccess data) →
        PaymentManager.getPaymentConfig now fetchedAt r s
        = (PaymentManager.getDefaultConfig, s)
        ∧ PaymentManager.menuOptions
            (PaymentManager.getPaymentConfig now fetchedAt r s).1
          = ["bank_transfer"; "ewallet"; "qris"]).
Proof.
  split.
  - intros now0 fetchedAt now later data r s Hfetch Hsoon s1.
    assert (Hs1 : s1 = {| PaymentManager.paymentConfig := Some data;
                          PaymentManager.lastFetch := fetchedAt |}).
    { subst s1. unfold PaymentManager.getPaymentConfig.
      destruct Hfetch as [-> | Hexp]; [done|].
      destruct (PaymentManager.paymentConfig s); [|done].
      apply Z.ltb_ge in Hexp. by rewrite Hexp. }
    rewrite Hs1. unfold PaymentManager.getPaymentConfig. simpl.
    apply Z.ltb_lt in Hsoon. by rewrite Hsoon.
  - intros now fetchedAt r s Hfetch Hfail.
    assert (Hres : PaymentManager.getPaymentConfig now fetchedAt r s
                   = (PaymentManager.getDefaultConfig, s)).
    { unfold PaymentManager.getPaymentConfig.
      assert (Hr : match r with
                   | PaymentManager.ApiSuccess data =>
                       (data, {| PaymentManager.paymentConfig := Some data;
                                 PaymentManager.lastFetch := fetchedAt |})
                   | _ => (PaymentManager.getDefaultConfig, s)
                   end = (PaymentManager.getDefaultConfig, s)).
      { destruct r as [| |data]; try done. by destruct (Hfail data). }
      destruct Hfetch as [-> | Hexp]; [exact Hr|].
      destruct (PaymentManager.paymentConfig s); [|exact Hr].
      apply Z.ltb_ge in Hexp. rewrite Hexp. exact Hr. }
    by rewrite Hres.
Qed.

(** A configuration fetched at time 1000 answers a call four minutes
    later, although the dashboard is down by then. *)
Lemma payment_config_cache_witness :
  (PaymentManager.getPaymentConfig 241000 241000 PaymentManager.FetchFailed
     (PaymentManager.getPaymentConfig 1000 1000
        (PaymentManager.ApiSuccess Sample.withCrypto) PaymentManager.init).2).1
  = Sample.withCrypto.
Proof.
  rewrite (proj1 payment_config_cache 1000%Z 1000%Z 241000%Z 241000%Z
             Sample.withCrypto PaymentManager.FetchFailed PaymentManager.init
             (or_introl eq_refl) eq_refl).
  reflexivity.
Defined.

(** ** The messages that show the products *)

Section Messages.

Import ChannelMessages.

Implicit Types (m : ChannelMessages.t) (editable : string → bool).

Lemma updateProductEmbed_subseteq editable (product : Payload) m :
  (updateProductEmbed editable product m).1 ⊆ m.
Proof.
  unfold updateProductEmbed. destruct product as [p|id]; [|done].
  destruct (m !! Product.productId p) as [mid|]; [|done].
  destruct (editable mid); [done|]. apply delete_subseteq.
Qed.

Lemma updateProductEmbed_edit editable (product : Payload) m
    (mid : string) (p : Product.IProduct) :
  (updateProductEmbed editable product m).2 = Some (mid, p) →
  product = FullDocument p ∧ m !! Product.productId p = Some mid
  ∧ editable mid = true.
Proof.
  unfold updateProductEmbed. destruct product as [q|id]; [|done].
  destruct (m !! Product.productId q) as [mid'|] eqn:Hq; [|done].
  destruct (editable mid') eqn:He; [|done]. simpl. by intros [= <- <-].
Qed.

Lemma replay_edits editable (calls : ChannelManager.t) m
    (acc : list (string * Product.IProduct)) :
  let r := foldl (fun acc product =>
                    let r := updateProductEmbed editable product acc.1 in
                    (r.1, acc.2 ++ match r.2 with Some e => [e] | None => [] end))
                 (m, acc) calls in
  r.1 ⊆ m
  ∧ ∃ new, r.2 = acc ++ new
           ∧ Forall (fun e => m !! Product.productId e.2 = Some e.1
                              ∧ editable e.1 = true
                              ∧ FullDocument e.2 ∈ calls) new.
Proof.
  revert m acc. induction calls as [|product calls IH]; intros m acc.
  - simpl. split; [done|]. exists []. by rewrite app_nil_r.
  - cbn [foldl]. cbv zeta. cbn [fst snd].
    pose proof (updateProductEmbed_subseteq editable product m) as Hstep.
    pose proof (updateProductEmbed_edit editable product m) as Hedit.
    destruct (updateProductEmbed editable product m) as [m1 edit].
    cbn [fst snd] in *.
    destruct (IH m1 (acc ++ match edit with Some e => [e] | None => [] end))
      as (Hsub & new & Hnew & Hall).
    cbv zeta in Hsub, Hnew.
    split; [by etrans|].
    exists (match edit with Some e => [e] | None => [] end ++ new).
    split; [by rewrite Hnew, app_assoc|].
    apply Forall_app. split.
    + destruct edit as [[mid p]|]; [|done]. constructor; [|done].
      destruct (Hedit mid p eq_refl) as (-> & Hl & He).
      split; [done|]. split; [done | left].
    + eapply Forall_impl; [exact Hall|]. intros e (Hl & He & Hin).
      split; [|split; [done | by right]].
      by eapply lookup_weaken.
Qed.

End Messages.

(** X21. [updateProductEmbed] never gives a product a message: in any
    sequence of calls, every edit is the edit of the message that the
    product had before the first call, that message was found, and the
    product shown is one of the products of the calls. A product with no
    message at the start is never shown, however often it is updated. *)
Theorem embed_edits_only_deployed (editable : string → bool)
    (calls : ChannelManager.t) (m : ChannelMessages.t)
    (messageId : string) (p : Product.IProduct) :
  (messageId, p) ∈ (ChannelMessages.replay editable calls m).2 →
  ChannelMessages.getProductMessageId (Product.productId p) m = Some messageId
  ∧ editable messageId = true
  ∧ FullDocument p ∈ calls.
Proof.
  intros Hin. destruct (replay_edits editable calls m []) as (_ & new & Hnew & Hall).
  unfold ChannelMessages.replay in Hin. cbv zeta in Hnew. rewrite Hnew in Hin.
  simpl in Hin. rewrite Forall_forall in Hall. exact (Hall _ Hin).
Qed.

(** [P1] has the message [M1], which is found: the presentation trace of
    the bot after its first poll edits [M1] to show [P1]. *)
Lemma embed_edits_only_deployed_witness :
  ChannelMessages.getProductMessageId "P1"
    (ChannelMessages.cacheProductMessage "P1" "M1" ∅) = Some "M1".
Proof.
  refine (proj1 (embed_edits_only_deployed (fun _ => true)
                   (Bot.channelManager Sample.polledOnce)
                   (ChannelMessages.cacheProductMessage "P1" "M1" ∅)
                   "M1" (Sample.widget 7 5) _)).
  vm_compute. left.
Defined.

(** X22. When the message of a product is not found in any channel (or
    cannot be edited), [updateProductEmbed] forgets it: every later update
    of that product edits nothing, also when the message can be found
    again. When the message is found, the map is left as it is. *)
Theorem embed_forgotten_after_miss (editable later : string → bool)
    (p q : Product.IProduct) (m : ChannelMessages.t) (messageId : string) :
  ChannelMessages.getProductMessageId (Product.productId p) m = Some messageId →
  Product.productId q = Product.productId p →
  (editable messageId = false →
   ChannelMessages.getProductMessageId (Product.productId p)
     (ChannelMessages.updateProductEmbed editable (FullDocument p) m).1 = None
   ∧ (ChannelMessages.updateProductEmbed later (FullDocument q)
        (ChannelMessages.updateProductEmbed editable (FullDocument p) m).1).2
     = None)
  ∧ (editable messageId = true →
     ChannelMessages.updateProductEmbed editable (FullDocument p) m
     = (m, Some (messageId, p))).
Proof.
  unfold ChannelMessages.getProductMessageId. intros Hm Hid.
  assert (Hmissed : editable messageId = false →
                    (ChannelMessages.updateProductEmbed editable (FullDocument p) m).1
                    = (delete (Product.productId p) m : gmap string string)).
  { intros Hmiss. unfold ChannelMessages.updateProductEmbed.
    by rewrite Hm, Hmiss. }
  split.
  - intros Hmiss. rewrite (Hmissed Hmiss). split.
    + apply lookup_delete_eq.
    + unfold ChannelMessages.updateProductEmbed, ChannelMessages.t.
      by rewrite Hid, lookup_delete_eq.
  - intros Hhit. unfold ChannelMessages.updateProductEmbed. by rewrite Hm, Hhit.
Qed.

(** The message [M1] of [P1] is gone when version 7 arrives and back
    when version 8 arrives: version 8 is not shown. *)
Lemma embed_forgotten_after_miss_witness :
  (ChannelMessages.updateProductEmbed (fun _ => true)
     (FullDocument (Sample.widget 8 4))
     (ChannelMessages.updateProductEmbed (fun _ => false)
        (FullDocument (Sample.widget 7 5))
        (ChannelMessages.cacheProductMessage "P1" "M1" ∅)).1).2
  = None.
Proof.
  apply (embed_forgotten_after_miss (fun _ => false) (fun _ => true)
           (Sample.widget 7 5) (Sample.widget 8 4)
           (ChannelMessages.cacheProductMessage "P1" "M1" ∅) "M1");
    [vm_compute; reflexivity | reflexivity | reflexivity].
Defined.

(** ** WebSocketClient: what happens when its attempts are used up *)

Section Client.

Import WebSocketClient.

Implicit Types (s : WebSocketClient.t).

Lemma client_handleDisconnection_retry s :
  (reconnectAttempts s < maxReconnectAttempts)%nat →
  ∃ s', handleDisconnection s = Returned s'
        ∧ reconnectAttempts s' = S (reconnectAttempts s)
        ∧ reconnectTimers s'
          = reconnectTimers s
            ++ [(reconnectDelay * Z.of_nat (S (reconnectAttempts s)))%Z]
        ∧ isConnected s' = false.
Proof.
  intros Hlt. apply Nat.ltb_lt in Hlt. unfold handleDisconnection.
  rewrite Hlt. by eexists.
Qed.

Lemma client_handleDisconnection_exhausted s :
  (maxReconnectAttempts ≤ reconnectAttempts s)%nat →
  ∃ s', handleDisconnection s = Threw s'
        ∧ reconnectAttempts s' = reconnectAttempts s
        ∧ reconnectTimers s' = reconnectTimers s
        ∧ isConnected s' = false.
Proof.
  intros Hge. apply Nat.ltb_ge in Hge. unfold handleDisconnection.
  rewrite Hge. by eexists.
Qed.

(** As long as attempts are left, the disconnections return. *)
Lemma client_disconnections_return (k : nat) s :
  (reconnectAttempts s + k ≤ maxReconnectAttempts)%nat →
  ∃ s', disconnections k s = Returned s'
        ∧ reconnectAttempts s' = reconnectAttempts s + k
        ∧ reconnectTimers s'
          = reconnectTimers s
            ++ ((fun i => (reconnectDelay * Z.of_nat (reconnectAttempts s + i))%Z)
                  <$> seq 1 k).
Proof.
  revert s. induction k as [|k IH]; intros s Hk.
  - exists s. split; [done|]. split; [lia|]. simpl. by rewrite app_nil_r.
  - destruct (client_handleDisconnection_retry s) as (s1 & H1 & Hn1 & Ht1 & _);
      [lia|].
    destruct (IH s1) as (s' & Hs' & Hn' & Ht'); [lia|].
    exists s'. cbn [disconnections]. rewrite H1.
    split; [exact Hs'|]. split; [lia|].
    rewrite Ht', Ht1, Hn1, <- app_assoc. f_equal.
    change (seq 1 (S k)) with (1 :: seq 2 k). rewrite fmap_cons.
    change ([(reconnectDelay * Z.of_nat (S (reconnectAttempts s)))%Z]
            ++ ((fun i => (reconnectDelay
                           * Z.of_nat (S (reconnectAttempts s) + i))%Z)
                  <$> seq 1 k))
      with ((reconnectDelay * Z.of_nat (S (reconnectAttempts s)))%Z
            :: ((fun i => (reconnectDelay
                           * Z.of_nat (S (reconnectAttempts s) + i))%Z)
                  <$> seq 1 k)).
    f_equal; [f_equal; lia|].
    rewrite <- (fmap_S_seq 1 k), <- list_fmap_compose.
    apply list_fmap_ext. intros i x _. simpl. f_equal. lia.
Qed.

End Client.

(** X23. [WebSocketClient] has no fallback to reach: of the disconnections
    that it handles in a row from a counter of zero, the first five
    return, each with a reconnect scheduled, after [1 * reconnectDelay],
    [2 * reconnectDelay], ...; the sixth one raises (it calls
    [activateFallbackMode], which the product manager does not have),
    with the client disconnected and no further reconnect scheduled. *)
Theorem client_exhaustion_raises (k : nat) (s : WebSocketClient.t) :
  WebSocketClient.reconnectAttempts s = 0 →
  ((k ≤ WebSocketClient.maxReconnectAttempts)%nat →
   ∃ s', WebSocketClient.disconnections k s = WebSocketClient.Returned s'
         ∧ WebSocketClient.reconnectAttempts s' = k
         ∧ WebSocketClient.reconnectTimers s'
           = WebSocketClient.reconnectTimers s
             ++ ((fun i => (WebSocketClient.reconnectDelay * Z.of_nat i)%Z)
                   <$> seq 1 k))
  ∧ ((WebSocketClient.maxReconnectAttempts < k)%nat →
     ∃ s', WebSocketClient.disconnections k s = WebSocketClient.Threw s'
           ∧ WebSocketClient.isConnected s' = false
           ∧ WebSocketClient.reconnectAttempts s'
             = WebSocketClient.maxReconnectAttempts
           ∧ WebSocketClient.reconnectTimers s'
             = WebSocketClient.reconnectTimers s
               ++ ((fun i => (WebSocketClient.reconnectDelay * Z.of_nat i)%Z)
                     <$> seq 1 WebSocketClient.maxReconnectAttempts)).
Proof.
  intros H0.
  assert (Hreturn : ∀ j, (j ≤ WebSocketClient.maxReconnectAttempts)%nat →
    ∃ s', WebSocketClient.disconnections j s = WebSocketClient.Returned s'
          ∧ WebSocketClient.reconnectAttempts s' = j
          ∧ WebSocketClient.reconnectTimers s'
            = WebSocketClient.reconnectTimers s
              ++ ((fun i => (WebSocketClient.reconnectDelay * Z.of_nat i)%Z)
                    <$> seq 1 j)).
  { intros j Hj.
    destruct (client_disconnections_return j s) as (s' & Hs' & Hn' & Ht');
      [lia|].
    exists s'. split; [exact Hs'|]. split; [lia|].
    rewrite Ht', H0. done. }
  split; [apply Hreturn|]. intros Hk.
  destruct (Hreturn WebSocketClient.maxReconnectAttempts) as (s5 & Hs5 & Hn5 & Ht5);
    [lia|].
  destruct (client_handleDisconnection_exhausted s5) as (s' & Hs' & Hn' & Ht' & Hc');
    [lia|].
  exists s'. split; [|split; [exact Hc'|split; [lia | by rewrite Ht', Ht5]]].
  replace k with (WebSocketClient.maxReconnectAttempts
                  + S (k - S WebSocketClient.maxReconnectAttempts))%nat by lia.
  generalize (k - S WebSocketClient.maxReconnectAttempts)%nat. intros m.
  clear Hk Hreturn Ht5 Hn5 H0 Hn' Ht' Hc'.
  revert s Hs5.
  generalize WebSocketClient.maxReconnectAttempts.
  intros n. induction n as [|n IH]; intros s Hs5.
  - simpl in Hs5. injection Hs5 as ->. cbn [Nat.add WebSocketClient.disconnections].
    by rewrite Hs'.
  - cbn [Nat.add WebSocketClient.disconnections] in *.
    destruct (WebSocketClient.handleDisconnection s) as [s1|s1]; [|done].
    by apply IH.
Qed.

(** Seven disconnections in a row on a fresh client: the handler raises,
    with the counter at five. *)
Lemma client_exhaustion_raises_witness :
  ∃ s', WebSocketClient.disconnections 7 WebSocketClient.init
        = WebSocketClient.Threw s'
        ∧ WebSocketClient.reconnectAttempts s' = 5.
Proof.
  destruct (proj2 (client_exhaustion_raises 7 WebSocketClient.init eq_refl))
    as (s' & Hs' & _ & Hn' & _); [vm_compute; lia|].
  exists s'. split; [exact Hs' | exact Hn'].
Defined.

(** ** The name of a ticket channel *)

Section ChannelName.

Import TicketSystem.

Lemma list_ascii_of_string_append (a b : string) :
  list_ascii_of_string (a ++ b)%string
  = list_ascii_of_string a ++ list_ascii_of_string b.
Proof.
  induction a as [|c a IH]; [done|].
  change (list_ascii_of_string (String c (a ++ b))
          = c :: (list_ascii_of_string a ++ list_ascii_of_string b)).
  cbn [list_ascii_of_string]. by rewrite IH.
Qed.

Lemma sanitize_chars (n : nat) (s : string) :
  Forall (fun c => isLowerAlnum c = true) (list_ascii_of_string (sanitize n s))
  ∧ (length (list_ascii_of_string (sanitize n s)) ≤ n)%nat.
Proof.
  unfold sanitize. rewrite list_ascii_of_string_of_list_ascii. split.
  - apply Forall_take, Forall_forall. intros c Hc.
    by apply list_elem_of_filter in Hc as [Hc _].
  - rewrite length_take. lia.
Qed.

Lemma string_of_uint_digits (d : Decimal.uint) :
  Forall (fun c => isLowerAlnum c = true)
    (list_ascii_of_string (NilEmpty.string_of_uint d)).
Proof. induction d; cbn; by constructor. Qed.

Lemma lastFour_chars (now : N) :
  Forall (fun c => isLowerAlnum c = true) (list_ascii_of_string (lastFour now))
  ∧ (length (list_ascii_of_string (lastFour now)) ≤ 4)%nat.
Proof.
  unfold lastFour. cbv zeta. rewrite list_ascii_of_string_of_list_ascii. split.
  - apply Forall_drop, string_of_uint_digits.
  - rewrite length_drop. lia.
Qed.

End ChannelName.

(** X24. A ticket channel name starts with [ticket-], is at most 38
    characters long, and apart from hyphens holds only lower-case letters
    and digits, whatever the user and the product are called. *)
Theorem channel_name_shape (username productName : string) (now : N) :
  let name := TicketSystem.generateChannelName username productName now in
  String.prefix "ticket-" name = true
  ∧ (length (list_ascii_of_string name) ≤ 38)%nat
  ∧ Forall (fun c => TicketSystem.isLowerAlnum c = true ∨ c = "-"%char)
      (list_ascii_of_string name).
Proof.
  intros name. subst name. unfold TicketSystem.generateChannelName.
  destruct (sanitize_chars 10 username) as [Hu Hul].
  destruct (sanitize_chars 15 productName) as [Hp Hpl].
  destruct (lastFour_chars now) as [Hn Hnl].
  split; [apply prefix_append|].
  rewrite !list_ascii_of_string_append.
  change (list_ascii_of_string "ticket-")
    with ["t"; "i"; "c"; "k"; "e"; "t"; "-"]%char.
  change (list_ascii_of_string "-") with ["-"%char].
  split.
  - rewrite !length_app. simpl. lia.
  - assert (Hweak : ∀ l, Forall (fun c => TicketSystem.isLowerAlnum c = true) l →
                         Forall (fun c => TicketSystem.isLowerAlnum c = true
                                          ∨ c = "-"%char) l).
    { intros l Hl. eapply Forall_impl; [exact Hl|]. intros c Hc. by left. }
    repeat (apply Forall_app; split); try by apply Hweak.
    all: repeat (apply List.Forall_cons; [first [by left | by right]|]);
      apply List.Forall_nil.
Qed.

(** ** Tickets are asked for available products only *)

(** X25. Whatever button id reaches it, the purchase handler asks for a
    ticket only for a product that is in the cache and, as cached, is
    available in the sense of the schema (active and in stock): exactly
    the products whose Buy button is rendered enabled. *)
Theorem ticket_only_for_available (customId : string)
    (pm : ProductManager.t) (q : Product.IProduct) :
  PurchaseFlow.handleBuyButton customId pm = PurchaseFlow.CreateTicket q →
  ProductSchema.isAvailable q = true
  ∧ ProductEmbedManager.buyDisabled q = false
  ∧ ∃ productId, ProductManager.getCachedProduct productId pm = Some q.
Proof.
  unfold PurchaseFlow.handleBuyButton.
  destruct (PurchaseFlow.split ":" customId !! 1%nat) as [productId|]; [|done].
  destruct (ProductManager.getCachedProduct productId pm) as [product|] eqn:Hc;
    [|done].
  destruct ((Product.stock product <=? 0)%Z || negb (Product.isActive product))
    eqn:Hd; [done|].
  intros [= <-]. split; [|split; [exact Hd | by exists productId]].
  apply orb_false_iff in Hd as [Hs Ha].
  unfold ProductSchema.isAvailable. apply Z.leb_gt in Hs.
  apply negb_false_iff in Ha. rewrite Ha. simpl. by apply Z.ltb_lt.
Qed.

(** The Buy button of [P1] on the bot that holds [P1] with five in
    stock. *)
Lemma ticket_only_for_available_witness :
  ProductSchema.isAvailable (Sample.widget 7 5) = true.
Proof.
  apply (ticket_only_for_available
           (ProductEmbedManager.buyCustomId (Sample.widget 7 5))
           (Bot.productManager Sample.polledOnce) (Sample.widget 7 5)).
  vm_compute. reflexivity.
Defined.

(** ** Registering and removing a socket *)

Section Registry.

Import WebSocket WebSocketServer.

Lemma delete_absent (c : CustomWebSocket) (cs : list CustomWebSocket) :
  socketId c ∉ socketId <$> cs → delete c cs = cs.
Proof.
  unfold delete. induction cs as [|x cs IH]; intros Hnin; [done|].
  rewrite fmap_cons, not_elem_of_cons in Hnin. destruct Hnin as [Hne Hnin].
  rewrite filter_cons_True by done. by rewrite IH.
Qed.

Lemma delete_app (c : CustomWebSocket) (cs1 cs2 : list CustomWebSocket) :
  delete c (cs1 ++ cs2) = delete c cs1 ++ delete c cs2.
Proof. unfold delete. apply filter_app. Qed.

End Registry.

(** X26. Accepting a socket that is not registered yet appends it to the
    set and sends the welcome message to that socket only, and only if it
    is open and the send does not raise; when that socket closes (or
    reports an error) afterwards, the set of registered sockets is again
    the one from before. *)
Theorem connection_round_trip
    (sendRaises : WebSocketServer.CustomWebSocket → bool) (now : Z)
    (ws : WebSocketServer.CustomWebSocket) (ty : WebSocketServer.ClientType)
    (h : WebSocketServer.t) :
  WebSocketServer.socketId ws
  ∉ WebSocketServer.socketId <$> WebSocketServer.clients h →
  let accepted := {| WebSocketServer.socketId := WebSocketServer.socketId ws;
                     WebSocketServer.readyState := WebSocketServer.readyState ws;
                     WebSocketServer.isAlive := true;
                     WebSocketServer.clientType := ty |} in
  let h1 := WebSocketServer.stateOf
              (WebSocketServer.onConnection sendRaises now ws ty h) in
  WebSocketServer.clients h1 = WebSocketServer.clients h ++ [accepted]
  ∧ WebSocketServer.delivered h1
    = WebSocketServer.delivered h
      ++ (if WebSocketServer.isOpen ws && negb (sendRaises accepted)
          then [(WebSocketServer.socketId ws,
                 (WebSocketServer.CONNECTION_ESTABLISHED, now))]
          else [])
  ∧ WebSocketServer.clients (WebSocketServer.onClose ws h1)
    = WebSocketServer.clients h
  ∧ WebSocketServer.clients (WebSocketServer.onError ws h1)
    = WebSocketServer.clients h.
Proof.
  intros Hnew accepted h1.
  assert (Hadd : WebSocketServer.add accepted (WebSocketServer.clients h)
                 = WebSocketServer.clients h ++ [accepted]).
  { unfold WebSocketServer.add. by rewrite bool_decide_eq_false_2. }
  assert (Hclients : WebSocketServer.clients h1
                     = WebSocketServer.clients h ++ [accepted]).
  { subst h1. unfold WebSocketServer.onConnection, WebSocketServer.sendToClient.
    rewrite forEachSend_clients. simpl. exact Hadd. }
  assert (Hremoved : WebSocketServer.delete ws (WebSocketServer.clients h1)
                     = WebSocketServer.clients h).
  { rewrite Hclients, delete_app, delete_absent by done.
    unfold WebSocketServer.delete. rewrite filter_cons_False by (simpl; tauto).
    by rewrite filter_nil, app_nil_r. }
  split; [exact Hclients|]. split; [|by split].
  subst h1. unfold WebSocketServer.onConnection, WebSocketServer.sendToClient.
  cbn [WebSocketServer.forEachSend]. fold accepted.
  change (WebSocketServer.isOpen accepted) with (WebSocketServer.isOpen ws).
  destruct (WebSocketServer.isOpen ws); [destruct (sendRaises accepted)|];
    simpl; by rewrite ?app_nil_r.
Qed.

(** A fourth socket connects to the hub with three open sockets and
    closes again. *)
Lemma connection_round_trip_witness :
  WebSocketServer.clients
    (WebSocketServer.onClose (Sample.socket 4 WebSocket.OPEN)
       (WebSocketServer.stateOf
          (WebSocketServer.onConnection Sample.noneRaises 0
             (Sample.socket 4 WebSocket.OPEN) WebSocketServer.dashboard
             Sample.threeOpen)))
  = WebSocketServer.clients Sample.threeOpen.
Proof.
  apply (connection_round_trip Sample.noneRaises 0
           (Sample.socket 4 WebSocket.OPEN) WebSocketServer.dashboard
           Sample.threeOpen).
  vm_compute. set_solver.
Defined.
